(** * myapp/main.py: the request and business-event logging pipeline

    A shallow embedding of [src/myapp/main.py]: the JSON log formatter,
    the HTTP middleware [log_requests], the endpoints [user_login],
    [get_business_logs] and [hello], and the parts of the Python runtime
    they call (datetime, uuid, json, logging).

    Python values that reach [json.dumps] or the document store are
    modelled by [value]; a [dict] is an association list in insertion
    order.  A Python [str] is a Rocq [string] whose characters are the
    code points below 256.  A [float] holding a number of seconds is the
    exact rational it was computed from.  Everything the process reads
    from outside (the wall clock, the random source, the document store)
    is an oracle held in the [World]. *)

From Stdlib Require Import ZArith QArith Ascii String List Lia.
From Stdlib Require Import DecimalString.
From stdpp Require Import base option list strings gmap.

Set Warnings "-register-all".
Local Open Scope Z_scope.

(** ** Strings *)

Module Str.

Definition LF : ascii := Ascii.ascii_of_nat 10.
Definition CR : ascii := Ascii.ascii_of_nat 13.

Fixpoint all_chars (p : ascii -> bool) (s : string) : bool :=
  match s with
  | EmptyString => true
  | String c s' => p c && all_chars p s'
  end.

(** The printable ASCII range [' ' .. '~']. *)
Definition printable (c : ascii) : bool :=
  let n := Ascii.nat_of_ascii c in (32 <=? n)%nat && (n <=? 126)%nat.

(** A string every character of which is printable ASCII lies on one
    line: it holds neither LF nor CR. *)
Definition single_line (s : string) : bool :=
  all_chars (fun c => negb (Ascii.eqb c LF) && negb (Ascii.eqb c CR)) s.

(** [contains sub s]: [sub] occurs in [s]. *)
Definition contains (sub s : string) : Prop :=
  exists pre post, s = pre +:+ sub +:+ post.

(** [str.join]. *)
Fixpoint join (sep : string) (l : list string) : string :=
  match l with
  | [] => ""
  | [x] => x
  | x :: rest => x +:+ sep +:+ join sep rest
  end.

(** [str.lower] on code points below 256 that are ASCII letters. *)
Definition lower_char (c : ascii) : ascii :=
  let n := Ascii.nat_of_ascii c in
  if (65 <=? n)%nat && (n <=? 90)%nat then Ascii.ascii_of_nat (n + 32) else c.

Fixpoint lower (s : string) : string :=
  match s with
  | EmptyString => EmptyString
  | String c s' => String (lower_char c) (lower s')
  end.

(** [int.__repr__]: decimal digits, with a leading minus sign. *)
Definition of_Z (z : Z) : string := NilZero.string_of_int (Z.to_int z).

(** One lowercase hexadecimal digit. *)
Definition hex_digit (n : Z) : ascii :=
  match n with
  | 0 => "0" | 1 => "1" | 2 => "2" | 3 => "3" | 4 => "4" | 5 => "5"
  | 6 => "6" | 7 => "7" | 8 => "8" | 9 => "9" | 10 => "a" | 11 => "b"
  | 12 => "c" | 13 => "d" | 14 => "e" | _ => "f"
  end%char.

(** [nibble i x]: the [i]-th hexadecimal digit of [x], counted from the
    least significant. *)
Definition nibble (i : Z) (x : Z) : Z := Z.land (Z.shiftr x (4 * i)) 15.

(** ['%0<n>x' % x] for [0 <= x < 16^n]: [n] hexadecimal digits. *)
Fixpoint hex (n : nat) (x : Z) : string :=
  match n with
  | O => EmptyString
  | S k => String (hex_digit (nibble (Z.of_nat k) x)) (hex k x)
  end.

(** ['%0<n>d' % z] for [0 <= z]: at least [n] decimal digits. *)
Fixpoint zeros (n : nat) : string :=
  match n with O => EmptyString | S k => String "0"%char (zeros k) end.

Definition zfill (n : nat) (z : Z) : string :=
  let d := of_Z z in zeros (n - String.length d) +:+ d.

End Str.


(** ** Python values and [dict] *)

(** The values that are stored in log records and documents and
    serialised by [json.dumps].  [VFloat q] is the float nearest to [q];
    its textual form is produced by the runtime ([float.__repr__]) and is
    taken from the [World]. *)
Inductive value : Type :=
| VNone
| VBool (b : bool)
| VInt (z : Z)
| VFloat (q : Q)
| VStr (s : string)
| VList (l : list value)
| VDict (d : list (string * value)).

(** Exceptions: the class name and [str(e)]. Only subclasses of
    [Exception] are modelled. *)
Record Exn : Type := mkExn { exn_type : string; exn_str : string }.

Inductive result (A : Type) : Type :=
| Ok (a : A)
| Raise (e : Exn).
Arguments Ok {A} a.
Arguments Raise {A} e.

Module Dict.

(** [d[k]] on the association list, [None] when the key is absent. *)
Fixpoint get (k : string) (d : list (string * value)) : option value :=
  match d with
  | [] => None
  | (k', v) :: rest => if String.eqb k k' then Some v else get k rest
  end.

(** [d[k] = v]: replaces in place when the key exists, appends otherwise
    (insertion order is what [json.dumps] iterates over). *)
Fixpoint set (k : string) (v : value) (d : list (string * value))
  : list (string * value) :=
  match d with
  | [] => [(k, v)]
  | (k', v') :: rest =>
      if String.eqb k k' then (k, v) :: rest else (k', v') :: set k v rest
  end.

Definition keys (d : list (string * value)) : list string := map fst d.

End Dict.

(** [obj[key]] with a string key: [KeyError] on a dict without the key,
    [TypeError] on anything that is not a dict. *)
Definition getitem (obj : value) (key : string) : result value :=
  match obj with
  | VDict d =>
      match Dict.get key d with
      | Some v => Ok v
      | None => Raise (mkExn "KeyError" key)
      end
  | _ => Raise (mkExn "TypeError" "indices must be integers")
  end.

(** [for x in obj]: the elements of a list, the keys of a dict, the
    characters of a str; [TypeError] otherwise. *)
Definition iterate (obj : value) : result (list value) :=
  match obj with
  | VList l => Ok l
  | VDict d => Ok (map (fun kv => VStr (fst kv)) d)
  | VStr s => Ok (map (fun c => VStr (String c EmptyString)) (list_ascii_of_string s))
  | _ => Raise (mkExn "TypeError" "object is not iterable")
  end.

(** ** json.dumps *)

Module Json.

(** [ESCAPE_DCT] and the [\uXXXX] fallback of [py_encode_basestring_ascii]
    ([ensure_ascii=True], the default). *)
Definition escape_char (c : ascii) : string :=
  let n := Z.of_nat (Ascii.nat_of_ascii c) in
  if n =? 92 then "\\"
  else if n =? 34 then String "\"%char (String (Ascii.ascii_of_nat 34) EmptyString)
  else if n =? 8 then "\b"
  else if n =? 12 then "\f"
  else if n =? 10 then "\n"
  else if n =? 13 then "\r"
  else if n =? 9 then "\t"
  else if Str.printable c then String c EmptyString
  else "\u" +:+ Str.hex 4 n.

Fixpoint escape (s : string) : string :=
  match s with
  | EmptyString => EmptyString
  | String c s' => escape_char c +:+ escape s'
  end.

Definition quote : string := String (Ascii.ascii_of_nat 34) EmptyString.

Definition encode_str (s : string) : string := quote +:+ escape s +:+ quote.

Section Dumps.

(** [float.__repr__], supplied by the runtime. *)
Variable float_repr : Q -> string.

(** [json.dumps(v)] with the default separators [", "] and [": "]. *)
Fixpoint dumps (v : value) : string :=
  match v with
  | VNone => "null"
  | VBool true => "true"
  | VBool false => "false"
  | VInt z => Str.of_Z z
  | VFloat q => float_repr q
  | VStr s => encode_str s
  | VList l => "[" +:+ Str.join ", " (map dumps l) +:+ "]"
  | VDict d =>
      "{" +:+ Str.join ", "
                (map (fun kv => encode_str (fst kv) +:+ ": " +:+ dumps (snd kv)) d)
          +:+ "}"
  end.

End Dumps.

End Json.


(** ** datetime *)

Module Datetime.

(** A naive [datetime.datetime], as [utcnow()] returns it. *)
Record datetime : Type := mkDatetime {
  year : Z; month : Z; day : Z;
  hour : Z; minute : Z; second : Z; microsecond : Z
}.

(** A normalised [datetime.timedelta]: [0 <= seconds < 86400] and
    [0 <= microseconds < 10^6]. *)
Record timedelta : Type := mkTimedelta {
  days : Z; seconds : Z; microseconds : Z
}.

Definition _is_leap (y : Z) : bool :=
  (y mod 4 =? 0) && (negb (y mod 100 =? 0) || (y mod 400 =? 0)).

Definition _days_before_year (y : Z) : Z :=
  let y := y - 1 in y * 365 + y / 4 - y / 100 + y / 400.

(** [_DAYS_BEFORE_MONTH]. *)
Definition _DAYS_BEFORE_MONTH (m : Z) : Z :=
  match m with
  | 1 => 0 | 2 => 31 | 3 => 59 | 4 => 90 | 5 => 120 | 6 => 151
  | 7 => 181 | 8 => 212 | 9 => 243 | 10 => 273 | 11 => 304 | 12 => 334
  | _ => -1
  end.

Definition _days_before_month (y m : Z) : Z :=
  _DAYS_BEFORE_MONTH m + (if (2 <? m) && _is_leap y then 1 else 0).

Definition _ymd2ord (y m d : Z) : Z :=
  _days_before_year y + _days_before_month y m + d.

Definition toordinal (t : datetime) : Z := _ymd2ord (year t) (month t) (day t).

(** [timedelta(days, seconds, microseconds)] on integers: carries are
    moved upward with [divmod]. *)
Definition make_timedelta (d s us : Z) : timedelta :=
  let s := s + us / 1000000 in
  let us := us mod 1000000 in
  let d := d + s / 86400 in
  let s := s mod 86400 in
  mkTimedelta d s us.

(** [datetime.__sub__] on two naive datetimes. *)
Definition sub (a b : datetime) : timedelta :=
  let secs1 := second a + minute a * 60 + hour a * 3600 in
  let secs2 := second b + minute b * 60 + hour b * 3600 in
  make_timedelta (toordinal a - toordinal b) (secs1 - secs2)
                 (microsecond a - microsecond b).

(** [timedelta.total_seconds()]. *)
Definition total_seconds (d : timedelta) : Q :=
  Qmake ((days d * 86400 + seconds d) * 1000000 + microseconds d) 1000000.

(** [datetime.isoformat()]: the fraction is printed only when the
    microsecond field is not zero. *)
Definition isoformat (t : datetime) : string :=
  Str.zfill 4 (year t) +:+ "-" +:+ Str.zfill 2 (month t) +:+ "-"
  +:+ Str.zfill 2 (day t) +:+ "T"
  +:+ Str.zfill 2 (hour t) +:+ ":" +:+ Str.zfill 2 (minute t) +:+ ":"
  +:+ Str.zfill 2 (second t)
  +:+ (if microsecond t =? 0 then "" else "." +:+ Str.zfill 6 (microsecond t)).

(** The instant of a datetime in microseconds since the start of the
    proleptic calendar; used to state properties only. *)
Definition to_micros (t : datetime) : Z :=
  ((toordinal t * 86400)
   + (hour t * 3600 + minute t * 60 + second t)) * 1000000 + microsecond t.

End Datetime.

Arguments Datetime.isoformat : simpl never.

(** ** uuid *)

Module Uuid.

(** A [uuid.UUID], by its 128-bit integer. *)
Record UUID : Type := mkUUID { int : Z }.

(** [UUID(bytes=b, version=4)]: the variant bits are set to RFC 4122 and
    the version nibble to 4; [r] is [int.from_bytes(b)]. *)
Definition with_version (r : Z) (version : Z) : UUID :=
  let i := Z.land r (Z.lnot (Z.shiftl 49152 48)) in
  let i := Z.lor i (Z.shiftl 32768 48) in
  let i := Z.land i (Z.lnot (Z.shiftl 61440 64)) in
  let i := Z.lor i (Z.shiftl version 76) in
  mkUUID i.

(** [uuid.uuid4()] from the 16 random bytes [r]. *)
Definition uuid4 (r : Z) : UUID := with_version r 4.

(** [UUID.version] and the two variant bits. *)
Definition version (u : UUID) : Z := Z.land (Z.shiftr (int u) 76) 15.
Definition variant_bits (u : UUID) : Z := Z.land (Z.shiftr (int u) 62) 3.

(** [str(u)]: 32 hexadecimal digits grouped 8-4-4-4-12. *)
Definition str (u : UUID) : string :=
  let h := Str.hex 32 (int u) in
  substring 0 8 h +:+ "-" +:+ substring 8 4 h +:+ "-" +:+ substring 12 4 h
  +:+ "-" +:+ substring 16 4 h +:+ "-" +:+ substring 20 12 h.

End Uuid.


(** ** The world outside the process *)

(** A call on the document-store client: [client.index(index=, body=,
    refresh=)] or [client.search(index=, body=)]. *)
Inductive ClientCall : Type :=
| CallIndex (index : string) (body : value) (refresh : bool)
| CallSearch (index : string) (body : value).

(** The oracles ([utc_clock], [urandom], [float_repr], [sink]) say what
    the outside answers; the counters and traces record what the process
    has done so far.  [sink k c] is the outcome of call [c] when [k]
    calls were made before it: the store's answer, or the exception the
    client raises. *)
Record World : Type := mkWorld {
  utc_clock : nat -> Datetime.datetime;
  ticks : nat;
  urandom : nat -> Z;
  draws : nat;
  float_repr : Q -> string;
  sink : nat -> ClientCall -> result value;
  client_calls : list ClientCall;
  file_log : list string;
  stdout : list string
}.

(** Computations that read and change the world and may raise. *)
Definition M (A : Type) : Type := World -> result A * World.

Definition ret {A} (a : A) : M A := fun w => (Ok a, w).

Definition bind {A B} (m : M A) (k : A -> M B) : M B :=
  fun w =>
    match m w with
    | (Ok a, w') => k a w'
    | (Raise e, w') => (Raise e, w')
    end.

Notation "x <- c1 ;; c2" := (bind c1 (fun x => c2))
  (at level 100, c1 at next level, right associativity).
Notation "c1 ;;; c2" := (bind c1 (fun _ => c2))
  (at level 100, right associativity).

(** [try: body / except Exception as e: handler(e)]. *)
Definition try_except {A} (body : M A) (handler : Exn -> M A) : M A :=
  fun w =>
    match body w with
    | (Ok a, w') => (Ok a, w')
    | (Raise e, w') => handler e w'
    end.

(** Lifting a pure result. *)
Definition lift {A} (r : result A) : M A := fun w => (r, w).

(** [datetime.datetime.utcnow()]: the next reading of the wall clock. *)
Definition utcnow : M Datetime.datetime :=
  fun w =>
    (Ok (utc_clock w (ticks w)),
     mkWorld (utc_clock w) (S (ticks w)) (urandom w) (draws w) (float_repr w)
             (sink w) (client_calls w) (file_log w) (stdout w)).

(** [uuid.uuid4()]: sixteen fresh random bytes, stamped as version 4. *)
Definition uuid4 : M Uuid.UUID :=
  fun w =>
    (Ok (Uuid.uuid4 (urandom w (draws w))),
     mkWorld (utc_clock w) (ticks w) (urandom w) (S (draws w)) (float_repr w)
             (sink w) (client_calls w) (file_log w) (stdout w)).

(** [str(x)] of a float. *)
Definition str_float (q : Q) : M string := fun w => (Ok (float_repr w q), w).

(** [json.dumps]. *)
Definition json_dumps (v : value) : M string :=
  fun w => (Ok (Json.dumps (float_repr w) v), w).

(** A call on the shared [client]: it is recorded, and returns or raises
    as the store decides. *)
Definition client_call (c : ClientCall) : M value :=
  fun w =>
    (sink w (length (client_calls w)) c,
     mkWorld (utc_clock w) (ticks w) (urandom w) (draws w) (float_repr w)
             (sink w) (client_calls w ++ [c]) (file_log w) (stdout w)).

Definition client_index (index : string) (body : value) (refresh : bool) : M value :=
  client_call (CallIndex index body refresh).

Definition client_search (index : string) (body : value) : M value :=
  client_call (CallSearch index body).

(** The two streams log handlers write to, one line per record. *)
Inductive Stream : Type := LogFile | Stdout.

Definition write_line (s : Stream) (line : string) : M unit :=
  fun w =>
    (Ok tt,
     match s with
     | LogFile =>
         mkWorld (utc_clock w) (ticks w) (urandom w) (draws w) (float_repr w)
                 (sink w) (client_calls w) (file_log w ++ [line]) (stdout w)
     | Stdout =>
         mkWorld (utc_clock w) (ticks w) (urandom w) (draws w) (float_repr w)
                 (sink w) (client_calls w) (file_log w) (stdout w ++ [line])
     end).

(** ** logging *)

Module Logging.

Definition INFO : Z := 20.
Definition WARNING : Z := 30.
Definition ERROR : Z := 40.

Definition getLevelName (level : Z) : string :=
  match level with
  | 50 => "CRITICAL" | 40 => "ERROR" | 30 => "WARNING" | 20 => "INFO"
  | 10 => "DEBUG" | 0 => "NOTSET"
  | _ => "Level " +:+ Str.of_Z level
  end.

(** A [logging.LogRecord] built with [args=()]: its name, level and
    message, and the attributes set on it afterwards or through
    [extra=]. None of the attribute names the formatter looks for is a
    standard attribute of [LogRecord]. *)
Record LogRecord : Type := mkLogRecord {
  name : string;
  levelno : Z;
  msg : string;
  attrs : gmap string value
}.

Definition levelname (r : LogRecord) : string := getLevelName (levelno r).

(** [record.getMessage()] with no arguments to interpolate. *)
Definition getMessage (r : LogRecord) : string := msg r.

Definition hasattr (r : LogRecord) (k : string) : bool :=
  bool_decide (is_Some (attrs r !! k)).

(** [record.<k> = v]. *)
Definition setattr (r : LogRecord) (k : string) (v : value) : LogRecord :=
  mkLogRecord (name r) (levelno r) (msg r) (<[k := v]> (attrs r)).

(** A handler: its threshold and the stream it writes to.  Every
    handler of the program uses the one [JsonFormatter]. *)
Record Handler : Type := mkHandler { h_level : Z; h_stream : Stream }.

End Logging.

(** ** Configuration (module level of main.py) *)

Record Config : Type := mkConfig {
  ENV : string;
  BUSINESS_INDEX : string;
  REQUEST_INDEX : string
}.

(** [os.getenv(key, default)]. *)
Definition getenv (environ : gmap string string) (key default : string) : string :=
  match environ !! key with
  | Some v => v
  | None => default
  end.

Definition load_config (environ : gmap string string) : Config :=
  {| ENV := Str.lower (getenv environ "APP_ENV" "prod");
     BUSINESS_INDEX := getenv environ "BUSINESS_INDEX" "app-logs-business";
     REQUEST_INDEX := getenv environ "REQUEST_INDEX" "app-logs-requests" |}.

(** ** HTTP messages *)

(** What the middleware reads of a request ([request.method],
    [request.url.path]) and of a response ([response.status_code]); the
    [body] stands for the rest of the response. *)
Record Request : Type := mkRequest { method : string; url_path : string }.
Record Response : Type := mkResponse { status_code : Z; body : value }.

(** A numeric query parameter declared [Query(default, ge=, le=)]. *)
Record Query : Type := mkQuery { q_default : Z; q_ge : Z; q_le : Z }.

Inductive Validated : Type :=
| Accepted (n : Z)
| Rejected (error_type : string).

(** The framework's check of a declared integer parameter: [raw] is the
    integer the client sent, if any. *)
Definition validate_query (q : Query) (raw : option Z) : Validated :=
  match raw with
  | None => Accepted (q_default q)
  | Some n =>
      if n <? q_ge q then Rejected "greater_than_equal"
      else if q_le q <? n then Rejected "less_than_equal"
      else Accepted n
  end.

(** The response to a request whose parameter was rejected. *)
Definition validation_error_response (param error_type : string) : Response :=
  mkResponse 422
    (VDict [("detail",
             VList [VDict [("type", VStr error_type);
                           ("loc", VList [VStr "query"; VStr param])]])]).

(** The response made from the value a path operation returns. *)
Definition json_response (v : value) : Response := mkResponse 200 v.

Definition is_dict (v : value) : bool :=
  match v with VDict _ => true | _ => false end.

(** [response_model=List[dict]]: the returned value must be a list of
    dicts. *)
Definition validate_list_of_dict (v : value) : result value :=
  match v with
  | VList l =>
      if forallb is_dict l then Ok v
      else Raise (mkExn "ResponseValidationError" "Input should be a valid dictionary")
  | _ => Raise (mkExn "ResponseValidationError" "Input should be a valid list")
  end.

(** ** The application *)

Section App.

Variable cfg : Config.

(** [if hasattr(record, k): log_record[k] = record.<k>]. *)
Definition copy_attr (record : Logging.LogRecord) (k : string)
    (log_record : list (string * value)) : list (string * value) :=
  match Logging.attrs record !! k with
  | Some v => Dict.set k v log_record
  | None => log_record
  end.

(** [JsonFormatter.format]: the dict that is serialised, given the
    reading of the clock. *)
Definition log_record_of (now : Datetime.datetime) (record : Logging.LogRecord)
  : list (string * value) :=
  let log_record :=
    [("@timestamp", VStr (Datetime.isoformat now +:+ "Z"));
     ("level", VStr (Logging.levelname record));
     ("logger", VStr (Logging.name record));
     ("message", VStr (Logging.getMessage record))] in
  let log_record := copy_attr record "request_id" log_record in
  let log_record := copy_attr record "user_id" log_record in
  let log_record := copy_attr record "event" log_record in
  let log_record := copy_attr record "method" log_record in
  let log_record := copy_attr record "path" log_record in
  let log_record := copy_attr record "status_code" log_record in
  let log_record := copy_attr record "duration_s" log_record in
  log_record.

Definition format (record : Logging.LogRecord) : M string :=
  now <- utcnow ;;
  json_dumps (VDict (log_record_of now record)).

(** The handlers: the file always, the console when [APP_ENV] is dev. *)
Definition file_handler : Logging.Handler := Logging.mkHandler Logging.INFO LogFile.
Definition console_handler : Logging.Handler := Logging.mkHandler Logging.INFO Stdout.

Definition handlers : list Logging.Handler :=
  [file_handler] ++ (if String.eqb (ENV cfg) "dev" then [console_handler] else []).

(** [Handler.handle]: format the record and write the line. *)
Definition emit (h : Logging.Handler) (record : Logging.LogRecord) : M unit :=
  line <- format record ;;
  write_line (Logging.h_stream h) line.

(** [Logger.callHandlers]: every handler whose level the record reaches. *)
Fixpoint callHandlers (hs : list Logging.Handler) (record : Logging.LogRecord)
  : M unit :=
  match hs with
  | [] => ret tt
  | h :: rest =>
      (if Logging.h_level h <=? Logging.levelno record then emit h record
       else ret tt) ;;;
      callHandlers rest record
  end.

(** [logger = logging.getLogger("myapp")], level INFO. *)
Definition logger_name : string := "myapp".
Definition logger_level : Z := Logging.INFO.

Definition logger_handle (record : Logging.LogRecord) : M unit :=
  callHandlers handlers record.

Definition logger_log (level : Z) (msg : string) (extra : gmap string value)
  : M unit :=
  if logger_level <=? level
  then logger_handle (Logging.mkLogRecord logger_name level msg extra)
  else ret tt.

Definition logger_info (msg : string) (extra : gmap string value) : M unit :=
  logger_log Logging.INFO msg extra.

Definition logger_error (msg : string) : M unit :=
  logger_log Logging.ERROR msg ∅.

(** The document the middleware sends to the request index. *)
Definition request_doc (start_time : Datetime.datetime) (request_id : string)
    (request : Request) (response : Response) (duration : Q) : value :=
  VDict [("@timestamp", VStr (Datetime.isoformat start_time +:+ "Z"));
         ("request_id", VStr request_id);
         ("method", VStr (method request));
         ("path", VStr (url_path request));
         ("status_code", VInt (status_code response));
         ("duration_s", VFloat duration)].

(** [@app.middleware("http") async def log_requests(request, call_next)].
    [call_next] runs the rest of the application; an exception that the
    application does not turn into a response is raised again by
    [await call_next(request)], and nothing in the middleware catches
    it. *)
Definition log_requests (request : Request) (call_next : Request -> M Response)
  : M Response :=
  u <- uuid4 ;;
  let request_id := Uuid.str u in
  start_time <- utcnow ;;
  response <- call_next request ;;
  end_time <- utcnow ;;
  let duration := Datetime.total_seconds (Datetime.sub end_time start_time) in
  duration_str <- str_float duration ;;
  let record :=
    Logging.mkLogRecord "myapp" Logging.INFO
      ("request_id=" +:+ request_id +:+ " method=" +:+ method request
       +:+ " path=" +:+ url_path request
       +:+ " status=" +:+ Str.of_Z (status_code response)
       +:+ " duration=" +:+ duration_str) ∅ in
  let record := Logging.setattr record "request_id" (VStr request_id) in
  let record := Logging.setattr record "method" (VStr (method request)) in
  let record := Logging.setattr record "path" (VStr (url_path request)) in
  let record := Logging.setattr record "status_code" (VInt (status_code response)) in
  let record := Logging.setattr record "duration_s" (VFloat duration) in
  logger_handle record ;;;
  let doc := request_doc start_time request_id request response duration in
  try_except
    (client_index (REQUEST_INDEX cfg) doc true ;;; ret tt)
    (fun e => logger_error ("OpenSearch indexing error (request log): " +:+ exn_str e)) ;;;
  ret response.

(** The document [user_login] sends to the business index. *)
Definition login_doc (now : Datetime.datetime) (user_id : Z) : value :=
  VDict [("@timestamp", VStr (Datetime.isoformat now +:+ "Z"));
         ("event", VStr "user_login");
         ("user_id", VInt user_id);
         ("service", VStr "user-service");
         ("message", VStr "User login succeeded")].

(** [@app.post("/user/{user_id}/login") async def user_login(user_id)]. *)
Definition user_login (user_id : Z) : M value :=
  logger_info ("user_login user_id=" +:+ Str.of_Z user_id)
    (<["user_id" := VInt user_id]> (<["event" := VStr "user_login"]> ∅)) ;;;
  now <- utcnow ;;
  let doc := login_doc now user_id in
  try_except
    (client_index (BUSINESS_INDEX cfg) doc true ;;; ret tt)
    (fun e => logger_error ("OpenSearch indexing error (business log): " +:+ exn_str e)) ;;;
  ret (VDict [("status", VStr "ok"); ("user_id", VInt user_id)]).

(** [x is not None]. *)
Definition is_not_None {A} (x : option A) : bool :=
  match x with Some _ => true | None => false end.

(** The [must_clauses] list of [get_business_logs], after the three
    conditional appends. *)
Definition must_clauses (user_id : option Z) (event : option string)
    (start_time end_time : option Datetime.datetime) : list value :=
  let must_clauses := [] in
  let must_clauses :=
    match user_id with
    | Some u => must_clauses ++ [VDict [("term", VDict [("user_id", VInt u)])]]
    | None => must_clauses
    end in
  let must_clauses :=
    match event with
    | Some e => must_clauses ++ [VDict [("term", VDict [("event", VStr e)])]]
    | None => must_clauses
    end in
  let must_clauses :=
    if is_not_None start_time || is_not_None end_time then
      let range_clause := [] in
      let range_clause :=
        match start_time with
        | Some t => Dict.set "gte" (VStr (Datetime.isoformat t +:+ "Z")) range_clause
        | None => range_clause
        end in
      let range_clause :=
        match end_time with
        | Some t => Dict.set "lte" (VStr (Datetime.isoformat t +:+ "Z")) range_clause
        | None => range_clause
        end in
      must_clauses ++ [VDict [("range", VDict [("@timestamp", VDict range_clause)])]]
    else must_clauses in
  must_clauses.

Definition query_body (user_id : option Z) (event : option string)
    (start_time end_time : option Datetime.datetime) (size : Z) : value :=
  VDict [("query", VDict [("bool", VDict [("must",
            VList (must_clauses user_id event start_time end_time))])]);
         ("sort", VList [VDict [("@timestamp", VDict [("order", VStr "desc")])]]);
         ("size", VInt size)].

(** [[hit["_source"] for hit in hits]]. *)
Fixpoint sources (hits : list value) : result (list value) :=
  match hits with
  | [] => Ok []
  | hit :: rest =>
      match getitem hit "_source" with
      | Raise e => Raise e
      | Ok s =>
          match sources rest with
          | Raise e => Raise e
          | Ok ss => Ok (s :: ss)
          end
      end
  end.

(** The body of [get_business_logs], entered with validated parameters. *)
Definition get_business_logs (user_id : option Z) (event : option string)
    (start_time end_time : option Datetime.datetime) (size : Z) : M value :=
  resp <- client_search (BUSINESS_INDEX cfg)
            (query_body user_id event start_time end_time size) ;;
  hits_outer <- lift (getitem resp "hits") ;;
  hits <- lift (getitem hits_outer "hits") ;;
  hit_list <- lift (iterate hits) ;;
  srcs <- lift (sources hit_list) ;;
  ret (VList srcs).

(** [@app.get("/hello") async def hello()]. *)
Definition hello : M value :=
  ret (VDict [("message", VStr "Hello, world!")]).

(** *** The path operations as the framework runs them

    The value a path operation returns becomes a 200 response; an
    exception it raises is not handled here and reaches the middleware
    through [call_next]. *)

(** [size: int = Query(50, ge=1, le=1000)]. *)
Definition size_param : Query := mkQuery 50 1 1000.

(** POST /user/{user_id}/login *)
Definition route_user_login (user_id : Z) : M Response :=
  v <- user_login user_id ;;
  ret (json_response v).

(** GET /logs/business: the parameters are validated before the body is
    entered, and the returned value is checked against the response
    model. *)
Definition route_get_business_logs (user_id : option Z) (event : option string)
    (start_time end_time : option Datetime.datetime) (size : option Z)
  : M Response :=
  match validate_query size_param size with
  | Rejected error_type => ret (validation_error_response "size" error_type)
  | Accepted n =>
      v <- get_business_logs user_id event start_time end_time n ;;
      v' <- lift (validate_list_of_dict v) ;;
      ret (json_response v')
  end.

(** GET /hello *)
Definition route_hello : M Response :=
  v <- hello ;;
  ret (json_response v).

End App.


(** ** Vocabulary of the properties *)

(** The keys [JsonFormatter.format] always writes, and the optional ones. *)
Definition required_keys : list string := ["@timestamp"; "level"; "logger"; "message"].
Definition optional_keys : list string :=
  ["request_id"; "user_id"; "event"; "method"; "path"; "status_code"; "duration_s"].

(** The bodies of the [client.index] calls made on index [idx]. *)
Fixpoint indexed_docs (idx : string) (calls : list ClientCall) : list value :=
  match calls with
  | [] => []
  | CallIndex i b _ :: rest =>
      if String.eqb i idx then b :: indexed_docs idx rest else indexed_docs idx rest
  | CallSearch _ _ :: rest => indexed_docs idx rest
  end.

(** The serialised record of an error reported through [logger.error]. *)
Definition error_line (fr : Q -> string) (timestamp msg : string) : string :=
  Json.dumps fr
    (VDict [("@timestamp", VStr timestamp); ("level", VStr "ERROR");
            ("logger", VStr "myapp"); ("message", VStr msg)]).

(** The world in which the downstream handler of a request is entered:
    the middleware has drawn the request id and read the clock once. *)
Definition entered (w : World) : World :=
  mkWorld (utc_clock w) (S (ticks w)) (urandom w) (S (draws w)) (float_repr w)
          (sink w) (client_calls w) (file_log w) (stdout w).

(** A datetime as seconds on the time line. *)
Definition instant (t : Datetime.datetime) : Q := Qmake (Datetime.to_micros t) 1000000.

(** The line the formatter produces for [record] when it is called in
    world [w]. *)
Definition formatted (w : World) (record : Logging.LogRecord) : string :=
  Json.dumps (float_repr w)
    (VDict (log_record_of (utc_clock w (ticks w)) record)).

(** What passing a record to the logger changes: the clock has been
    read, the file has one more line, and nothing else the properties
    look at has moved. *)
Record logged (record : Logging.LogRecord) (w w' : World) : Prop := mkLogged {
  lg_clock : utc_clock w' = utc_clock w;
  lg_urandom : urandom w' = urandom w;
  lg_draws : draws w' = draws w;
  lg_float : float_repr w' = float_repr w;
  lg_sink : sink w' = sink w;
  lg_calls : client_calls w' = client_calls w;
  lg_ticks : (ticks w < ticks w' <= ticks w + 2)%nat;
  lg_file : file_log w' = file_log w ++ [formatted w record]
}.

(** The request id and the telemetry document of a request that enters
    the middleware in world [w] and whose downstream handler leaves the
    world [w2]. *)
Definition request_id_of (w : World) : string :=
  Uuid.str (Uuid.uuid4 (urandom w (draws w))).

Definition telemetry_doc (w w2 : World) (request : Request) (response : Response)
  : value :=
  request_doc (utc_clock w (ticks w)) (request_id_of w) request response
    (Datetime.total_seconds
       (Datetime.sub (utc_clock w2 (ticks w2)) (utc_clock w (ticks w)))).

Definition telemetry_call (cfg : Config) (w w2 : World) (request : Request)
    (response : Response) : ClientCall :=
  CallIndex (REQUEST_INDEX cfg) (telemetry_doc w w2 request response) true.

(** The lines the failure of a sink submission adds to the log file. *)
Definition failure_lines (fr : Q -> string) (tag : string) (timestamp : string)
    (outcome : result value) : list string :=
  match outcome with
  | Ok _ => []
  | Raise e =>
      [error_line fr timestamp
         ("OpenSearch indexing error (" +:+ tag +:+ "): " +:+ exn_str e)]
  end.

(** The payload [user_login] returns. *)
Definition login_payload (user_id : Z) : value :=
  VDict [("status", VStr "ok"); ("user_id", VInt user_id)].

(** Reading a clause of the query back: the value of an equality
    ([term]) clause on [field], the bounds of a [range] clause on
    [field]. *)
Definition term_on (field : string) (clause : value) : option value :=
  match clause with
  | VDict [(op, VDict [(f, v)])] =>
      if String.eqb op "term" && String.eqb f field then Some v else None
  | _ => None
  end.

Definition range_on (field : string) (clause : value)
  : option (list (string * value)) :=
  match clause with
  | VDict [(op, VDict [(f, VDict bounds)])] =>
      if String.eqb op "range" && String.eqb f field then Some bounds else None
  | _ => None
  end.

(** The text of a time bound, when the bound is supplied. *)
Definition time_bound (t : option Datetime.datetime) : option value :=
  match t with
  | Some t => Some (VStr (Datetime.isoformat t +:+ "Z"))
  | None => None
  end.

(** The calls on the client made since world [w]. *)
Definition calls_since (w w' : World) : list ClientCall :=
  drop (length (client_calls w)) (client_calls w').

(** ** Concrete worlds used to exercise the properties *)

Module Examples.

Definition cfg_default : Config := load_config ∅.
Definition cfg_dev : Config := load_config (<["APP_ENV" := "DEV"]> ∅).

(** A clock that advances one second per reading, and one that was set
    back between readings. *)
Definition clock_forward (n : nat) : Datetime.datetime :=
  Datetime.mkDatetime 2024 1 2 3 4 (Z.of_nat n) 0.
Definition clock_set_back (n : nat) : Datetime.datetime :=
  Datetime.mkDatetime 2024 1 2 3 4 (30 - Z.of_nat n) 0.

(** The text of a float that holds a whole number. *)
Definition repr_whole (q : Q) : string :=
  Str.of_Z (Qnum q / Zpos (Qden q)) +:+ ".0".

Definition connection_refused : Exn := mkExn "ConnectionError" "Connection refused".

(** A store that cannot be reached. *)
Definition sink_down (k : nat) (c : ClientCall) : result value :=
  Raise connection_refused.

Definition hit (id : string) (source : list (string * value)) : value :=
  VDict [("_index", VStr "app-logs-business"); ("_id", VStr id);
         ("_source", VDict source)].

Definition stored_login (second user_id : Z) : list (string * value) :=
  [("@timestamp", VStr (Datetime.isoformat (Datetime.mkDatetime 2024 1 2 3 4 second 0) +:+ "Z"));
   ("event", VStr "user_login"); ("user_id", VInt user_id);
   ("service", VStr "user-service"); ("message", VStr "User login succeeded")].

Definition search_response (hits : list value) : value :=
  VDict [("took", VInt 3); ("timed_out", VBool false);
         ("hits", VDict [("total", VDict [("value", VInt (Z.of_nat (length hits)))]);
                         ("hits", VList hits)])].

(** A store that accepts every document and answers every search with
    the same two hits. *)
Definition sink_up (k : nat) (c : ClientCall) : result value :=
  match c with
  | CallIndex _ _ _ => Ok (VDict [("result", VStr "created")])
  | CallSearch _ _ =>
      Ok (search_response [hit "b" (stored_login 9 7); hit "a" (stored_login 5 7)])
  end.

(** A store that holds no document. *)
Definition sink_empty (k : nat) (c : ClientCall) : result value :=
  match c with
  | CallIndex _ _ _ => Ok (VDict [("result", VStr "created")])
  | CallSearch _ _ => Ok (search_response [])
  end.

Definition world (clock : nat -> Datetime.datetime)
    (sink : nat -> ClientCall -> result value) : World :=
  mkWorld clock 0 (fun n => Z.of_nat n) 0 repr_whole sink [] [] [].

Definition world_up : World := world clock_forward sink_up.
Definition world_down : World := world clock_forward sink_down.
Definition world_empty : World := world clock_forward sink_empty.
Definition world_clock_set_back : World := world clock_set_back sink_up.

Definition get_hello : Request := mkRequest "GET" "/hello".
Definition get_logs : Request := mkRequest "GET" "/logs/business".
Definition post_login : Request := mkRequest "POST" "/user/42/login".

(** A record with two of the optional fields set, one of them to None. *)
Definition sample_record : Logging.LogRecord :=
  Logging.mkLogRecord "myapp" Logging.INFO "line one
line two" (<["user_id" := VNone]> (<["duration_s" := VFloat 2]> ∅)).

End Examples.

(** ** Vocabulary of the further properties *)

(** The world after one more reading of the clock. *)
Definition tick (w : World) : World :=
  mkWorld (utc_clock w) (S (ticks w)) (urandom w) (draws w) (float_repr w)
          (sink w) (client_calls w) (file_log w) (stdout w).

(** What the process cannot change: the answers of the clock, of the
    random source, of the float printer and of the document store. *)
Record same_oracles (w w' : World) : Prop := mkSameOracles {
  so_clock : utc_clock w' = utc_clock w;
  so_urandom : urandom w' = urandom w;
  so_float : float_repr w' = float_repr w;
  so_sink : sink w' = sink w
}.

(** The search the query endpoint sends for its parameters. *)
Definition search_call (cfg : Config) (user_id : option Z) (event : option string)
    (start_time end_time : option Datetime.datetime) (size : Z) : ClientCall :=
  CallSearch (BUSINESS_INDEX cfg) (query_body user_id event start_time end_time size).

(** The entry the formatter writes for an optional attribute. *)
Definition attr_entry (record : Logging.LogRecord) (k : string)
  : option (string * value) :=
  match Logging.attrs record !! k with
  | Some v => Some (k, v)
  | None => None
  end.

(** The world after a line was written to a stream. *)
Definition wrote (s : Stream) (line : string) (w : World) : World :=
  snd (write_line s line w).

(** The world after a record of level INFO or above went through the
    logger, and after a call on the client. *)
Definition after_logging (cfg : Config) (record : Logging.LogRecord) (w : World)
  : World :=
  if String.eqb (ENV cfg) "dev"
  then wrote Stdout (formatted (tick w) record)
         (tick (wrote LogFile (formatted w record) (tick w)))
  else wrote LogFile (formatted w record) (tick w).

Definition called (c : ClientCall) (w : World) : World := snd (client_call c w).

(** The record [logger.error] makes of a failed submission. *)
Definition failure_record (tag : string) (e : Exn) : Logging.LogRecord :=
  Logging.mkLogRecord "myapp" Logging.ERROR
    ("OpenSearch indexing error (" +:+ tag +:+ "): " +:+ exn_str e) ∅.

(** The world after a submission inside [try/except]. *)
Definition after_submit (cfg : Config) (tag : string) (call : ClientCall) (w : World)
  : World :=
  match sink w (length (client_calls w)) call with
  | Ok _ => called call w
  | Raise e => after_logging cfg (failure_record tag e) (called call w)
  end.

(** The records the login handler and the middleware hand to the
    logger. *)
Definition login_record (user_id : Z) : Logging.LogRecord :=
  Logging.mkLogRecord "myapp" Logging.INFO
    ("user_login user_id=" +:+ Str.of_Z user_id)
    (<["user_id" := VInt user_id]> (<["event" := VStr "user_login"]> ∅)).

Definition request_message (request_id : string) (request : Request)
    (response : Response) (duration_str : string) : string :=
  "request_id=" +:+ request_id +:+ " method=" +:+ method request
  +:+ " path=" +:+ url_path request
  +:+ " status=" +:+ Str.of_Z (status_code response)
  +:+ " duration=" +:+ duration_str.

(** Reading JSON string text back: the inverse of the escaping that
    [json.dumps] applies, on the escapes it produces. *)
Definition hex_value (c : ascii) : option Z :=
  let n := Z.of_nat (Ascii.nat_of_ascii c) in
  if (48 <=? n) && (n <=? 57) then Some (n - 48)
  else if (97 <=? n) && (n <=? 102) then Some (n - 87)
  else None.

Definition simple_escape (c : ascii) : option ascii :=
  let n := Z.of_nat (Ascii.nat_of_ascii c) in
  if n =? 92 then Some c
  else if n =? 34 then Some c
  else if n =? 98 then Some (Ascii.ascii_of_nat 8)
  else if n =? 102 then Some (Ascii.ascii_of_nat 12)
  else if n =? 110 then Some (Ascii.ascii_of_nat 10)
  else if n =? 114 then Some (Ascii.ascii_of_nat 13)
  else if n =? 116 then Some (Ascii.ascii_of_nat 9)
  else None.

Definition cons_char (c : ascii) (o : option string) : option string :=
  match o with
  | Some s => Some (String c s)
  | None => None
  end.

Fixpoint unescape (s : string) : option string :=
  match s with
  | EmptyString => Some EmptyString
  | String c rest =>
      if Ascii.eqb c "\"%char then
        match rest with
        | EmptyString => None
        | String e rest1 =>
            if Ascii.eqb e "u"%char then
              match rest1 with
              | String a (String b (String h (String l rest2))) =>
                  match hex_value a, hex_value b, hex_value h, hex_value l with
                  | Some 0, Some 0, Some hi, Some lo =>
                      cons_char (Ascii.ascii_of_nat (Z.to_nat (16 * hi + lo)))
                        (unescape rest2)
                  | _, _, _, _ => None
                  end
              | _ => None
              end
            else
              match simple_escape e with
              | Some ch => cons_char ch (unescape rest1)
              | None => None
              end
        end
      else if Str.printable c && negb (Ascii.eqb c (Ascii.ascii_of_nat 34))
      then cons_char c (unescape rest)
      else None
  end.

(** A lowercase hexadecimal digit. *)
Definition is_hex_char (c : ascii) : bool :=
  match hex_value c with Some _ => true | None => false end.

Definition is_hyphen (c : ascii) : bool := Ascii.eqb c "-"%char.

Module MoreExamples.

(** A store whose second hit has no stored body. *)
Definition sink_partial (k : nat) (c : ClientCall) : result value :=
  match c with
  | CallIndex _ _ _ => Ok (VDict [("result", VStr "created")])
  | CallSearch _ _ =>
      Ok (Examples.search_response
            [Examples.hit "b" (Examples.stored_login 9 7);
             VDict [("_index", VStr "app-logs-business"); ("_id", VStr "c")];
             Examples.hit "a" (Examples.stored_login 5 7)])
  end.

Definition world_partial : World := Examples.world Examples.clock_forward sink_partial.

(** A record as the middleware builds it. *)
Definition request_record : Logging.LogRecord :=
  Logging.setattr
    (Logging.setattr
       (Logging.setattr (Logging.mkLogRecord "myapp" Logging.INFO "served" ∅)
          "method" (VStr "GET"))
       "status_code" (VInt 200))
    "request_id" (VStr "00000000-0000-4000-8000-000000000000").

(** A store that answers a search with an empty dict in the place of the
    list of hits. *)
Definition sink_hits_dict (k : nat) (c : ClientCall) : result value :=
  match c with
  | CallIndex _ _ _ => Ok (VDict [("result", VStr "created")])
  | CallSearch _ _ => Ok (VDict [("hits", VDict [("hits", VDict [])])])
  end.

Definition world_hits_dict : World := Examples.world Examples.clock_forward sink_hits_dict.

Definition environ_dev : gmap string string :=
  <["APP_ENV" := "Dev"]> (<["REQUEST_INDEX" := "requests-2024"]> ∅).

End MoreExamples.

(** * Properties *)

(** ** Strings and JSON text *)

Lemma all_chars_app p s1 s2 :
  Str.all_chars p (s1 +:+ s2) = Str.all_chars p s1 && Str.all_chars p s2.
Proof.
  induction s1 as [|c s1 IH]; simpl; [reflexivity|].
  rewrite IH. now rewrite andb_assoc.
Qed.

Lemma all_chars_impl (p q : ascii -> bool) s :
  (forall c, p c = true -> q c = true) ->
  Str.all_chars p s = true -> Str.all_chars q s = true.
Proof.
  intros Hpq. induction s as [|c s IH]; simpl; [reflexivity|].
  intros [Hc Hs]%andb_prop. rewrite (Hpq _ Hc), (IH Hs). reflexivity.
Qed.

Lemma printable_single_line s :
  Str.all_chars Str.printable s = true -> Str.single_line s = true.
Proof.
  apply all_chars_impl.
  intros [[] [] [] [] [] [] [] []]; vm_compute; congruence.
Qed.

Lemma string_of_uint_printable d :
  Str.all_chars Str.printable (NilEmpty.string_of_uint d) = true.
Proof. induction d; simpl; auto. Qed.

Lemma of_Z_printable z : Str.all_chars Str.printable (Str.of_Z z) = true.
Proof.
  unfold Str.of_Z, NilZero.string_of_int, NilZero.string_of_uint.
  destruct (Z.to_int z) as [d|d]; destruct d; simpl;
    auto using string_of_uint_printable.
Qed.

Lemma hex_digit_printable n : Str.printable (Str.hex_digit n) = true.
Proof.
  destruct n as [|p|p]; try reflexivity.
  do 4 (destruct p as [p|p|]; try reflexivity).
Qed.

Lemma hex_printable n x : Str.all_chars Str.printable (Str.hex n x) = true.
Proof.
  induction n as [|n IH]; simpl; [reflexivity|].
  now rewrite hex_digit_printable, IH.
Qed.

Lemma escape_char_printable c :
  Str.all_chars Str.printable (Json.escape_char c) = true.
Proof.
  unfold Json.escape_char.
  repeat match goal with |- context [if ?b then _ else _] => destruct b eqn:? end;
    try reflexivity.
  - simpl. now rewrite Heqb6.
  - rewrite all_chars_app, hex_printable. reflexivity.
Qed.

Lemma escape_printable s : Str.all_chars Str.printable (Json.escape s) = true.
Proof.
  induction s as [|c s IH]; simpl; [reflexivity|].
  now rewrite all_chars_app, escape_char_printable, IH.
Qed.

Lemma encode_str_printable s :
  Str.all_chars Str.printable (Json.encode_str s) = true.
Proof.
  unfold Json.encode_str. rewrite !all_chars_app, escape_printable. reflexivity.
Qed.

Lemma join_printable sep l :
  Str.all_chars Str.printable sep = true ->
  Forall (fun s => Str.all_chars Str.printable s = true) l ->
  Str.all_chars Str.printable (Str.join sep l) = true.
Proof.
  intros Hsep. induction 1 as [|s l Hs Hl IH]; [reflexivity|].
  destruct l as [|s' l']; [exact Hs|].
  change (Str.join sep (s :: s' :: l')) with (s +:+ sep +:+ Str.join sep (s' :: l')).
  now rewrite !all_chars_app, Hs, Hsep, IH.
Qed.

(** Induction on values that reaches into lists and dicts. *)
Lemma value_nested_ind (P : value -> Prop) :
  P VNone -> (forall b, P (VBool b)) -> (forall z, P (VInt z)) ->
  (forall q, P (VFloat q)) -> (forall s, P (VStr s)) ->
  (forall l, Forall P l -> P (VList l)) ->
  (forall d, Forall (fun kv => P (snd kv)) d -> P (VDict d)) ->
  forall v, P v.
Proof.
  intros HN HB HI HF HS HL HD.
  fix IH 1. intros [ | b | z | q | s | l | d ].
  - exact HN.
  - apply HB.
  - apply HI.
  - apply HF.
  - apply HS.
  - apply HL. induction l as [|x l IHl]; constructor; [apply IH | exact IHl].
  - apply HD. induction d as [|[k x] d IHd]; constructor; [apply IH | exact IHd].
Qed.

(** Whatever the strings inside a value hold, [json.dumps] writes
    printable ASCII only, as long as floats print that way. *)
Lemma dumps_printable (fr : Q -> string) :
  (forall q, Str.all_chars Str.printable (fr q) = true) ->
  forall v, Str.all_chars Str.printable (Json.dumps fr v) = true.
Proof.
  intros Hfr v. induction v as [ | [] | z | q | s | l IH | d IH ]
    using value_nested_ind.
  - reflexivity.
  - reflexivity.
  - reflexivity.
  - apply of_Z_printable.
  - apply Hfr.
  - apply encode_str_printable.
  - cbn [Json.dumps]. rewrite !all_chars_app. simpl. rewrite andb_true_r.
    apply join_printable; [reflexivity|].
    induction IH; simpl; constructor; auto.
  - cbn [Json.dumps]. rewrite !all_chars_app. simpl. rewrite andb_true_r.
    apply join_printable; [reflexivity|].
    induction IH as [|[k x] d Hx Hd IHd]; simpl; constructor; auto.
    rewrite !all_chars_app, encode_str_printable. simpl. exact Hx.
Qed.

Lemma length_append (s1 s2 : string) :
  String.length (s1 +:+ s2) = (String.length s1 + String.length s2)%nat.
Proof. induction s1 as [|c s1 IH]; simpl; [reflexivity | now rewrite IH]. Qed.

Lemma append_inv_tail (s1 s2 t : string) : s1 +:+ t = s2 +:+ t -> s1 = s2.
Proof.
  revert s2. induction s1 as [|c s1 IH]; intros [|c2 s2] H; simpl in H.
  - reflexivity.
  - exfalso. apply (f_equal String.length) in H.
    rewrite !length_append in H. simpl in H. lia.
  - exfalso. apply (f_equal String.length) in H.
    rewrite !length_append in H. simpl in H. lia.
  - injection H as -> H. f_equal. now apply IH.
Qed.

Lemma append_empty_r (s : string) : s +:+ "" = s.
Proof.
  induction s as [|c s IH]; [reflexivity|].
  change (String c (s +:+ "") = String c s). now rewrite IH.
Qed.

Lemma contains_intro pre sub post : Str.contains sub (pre +:+ sub +:+ post).
Proof. now exists pre, post. Qed.

Lemma contains_suffix pre sub : Str.contains sub (pre +:+ sub).
Proof. exists pre, "". now rewrite append_empty_r. Qed.

(** ** dict *)

Lemma dict_get_set_eq k v d : Dict.get k (Dict.set k v d) = Some v.
Proof.
  induction d as [|[k' v'] d IH]; simpl.
  - now rewrite String.eqb_refl.
  - destruct (String.eqb k k') eqn:E; simpl; rewrite ?String.eqb_refl, ?E; auto.
Qed.

Lemma dict_get_set_ne k k' v d :
  k <> k' -> Dict.get k (Dict.set k' v d) = Dict.get k d.
Proof.
  intros Hne. apply String.eqb_neq in Hne as Hne'.
  induction d as [|[k2 v2] d IH]; simpl.
  - now rewrite Hne'.
  - destruct (String.eqb k' k2) eqn:E; simpl.
    + apply String.eqb_eq in E as <-. now rewrite Hne'.
    + now rewrite IH.
Qed.

Lemma dict_get_keys k d : is_Some (Dict.get k d) <-> k ∈ Dict.keys d.
Proof.
  induction d as [|[k' v'] d IH]; simpl.
  - split; [intros [? [=]] | intros H; inversion H].
  - destruct (String.eqb k k') eqn:E.
    + apply String.eqb_eq in E as ->. split; [left | eauto].
    + apply String.eqb_neq in E. rewrite IH. split.
      * now right.
      * intros H. inversion H; subst; [contradiction | assumption].
Qed.

(** ** datetime *)

(** The difference of two datetimes, in seconds, is the exact distance
    of their instants. *)
Lemma total_seconds_sub a b :
  Datetime.total_seconds (Datetime.sub a b)
  = Qmake (Datetime.to_micros a - Datetime.to_micros b) 1000000.
Proof.
  unfold Datetime.total_seconds, Datetime.sub, Datetime.make_timedelta,
    Datetime.to_micros. cbn [Datetime.days Datetime.seconds Datetime.microseconds].
  f_equal.
  set (us := Datetime.microsecond a - Datetime.microsecond b).
  set (s := Datetime.second a + Datetime.minute a * 60 + Datetime.hour a * 3600
            - (Datetime.second b + Datetime.minute b * 60 + Datetime.hour b * 3600)).
  pose proof (Z.div_mod us 1000000 ltac:(lia)) as Hus.
  pose proof (Z.div_mod (s + us / 1000000) 86400 ltac:(lia)) as Hs.
  subst us s. lia.
Qed.

Lemma duration_nonneg a b :
  Datetime.to_micros b <= Datetime.to_micros a ->
  (0 <= Datetime.total_seconds (Datetime.sub a b))%Q.
Proof.
  intros H. rewrite total_seconds_sub. unfold Qle. simpl. lia.
Qed.

Lemma duration_negative a b :
  Datetime.to_micros a < Datetime.to_micros b ->
  (Datetime.total_seconds (Datetime.sub a b) < 0)%Q.
Proof.
  intros H. rewrite total_seconds_sub. unfold Qlt. simpl. lia.
Qed.

(** Start plus duration is the end. *)
Lemma instant_plus_duration a b :
  (instant b + Datetime.total_seconds (Datetime.sub a b) == instant a)%Q.
Proof.
  rewrite total_seconds_sub. unfold instant, Qeq, Qplus. simpl. lia.
Qed.

(** ** uuid *)

Lemma uuid4_version r : Uuid.version (Uuid.uuid4 r) = 4.
Proof.
  unfold Uuid.version, Uuid.uuid4, Uuid.with_version. cbn [Uuid.int].
  apply Z.bits_inj'. intros n Hn.
  rewrite Z.land_spec, Z.shiftr_spec by lia.
  rewrite Z.lor_spec, Z.land_spec, Z.lor_spec, Z.land_spec.
  rewrite !Z.lnot_spec by lia.
  destruct (Z.ltb_spec n 4) as [Hlt|Hge].
  - assert (n = 0 \/ n = 1 \/ n = 2 \/ n = 3) as [-> | [-> | [-> | ->]]] by lia;
      cbn -[Z.testbit]; destruct (Z.testbit r _); reflexivity.
  - change 15 with (Z.ones 4). rewrite Z.testbit_ones_nonneg by lia.
    replace (n <? 4) with false by (symmetry; apply Z.ltb_ge; lia).
    rewrite andb_false_r. symmetry.
    change 4 with (2 ^ 2). rewrite Z.pow2_bits_eqb by lia.
    apply Z.eqb_neq. lia.
Qed.

Lemma uuid4_variant r : Uuid.variant_bits (Uuid.uuid4 r) = 2.
Proof.
  unfold Uuid.variant_bits, Uuid.uuid4, Uuid.with_version. cbn [Uuid.int].
  apply Z.bits_inj'. intros n Hn.
  rewrite Z.land_spec, Z.shiftr_spec by lia.
  rewrite Z.lor_spec, Z.land_spec, Z.lor_spec, Z.land_spec.
  rewrite !Z.lnot_spec by lia.
  destruct (Z.ltb_spec n 2) as [Hlt|Hge].
  - assert (n = 0 \/ n = 1) as [-> | ->] by lia;
      cbn -[Z.testbit]; destruct (Z.testbit r _); reflexivity.
  - change 3 with (Z.ones 2). rewrite Z.testbit_ones_nonneg by lia.
    replace (n <? 2) with false by (symmetry; apply Z.ltb_ge; lia).
    rewrite andb_false_r. symmetry.
    change 2 with (2 ^ 1). rewrite Z.pow2_bits_eqb by lia.
    apply Z.eqb_neq. lia.
Qed.

(** The version digit is the character after the second dash. *)
Lemma uuid_str_version_digit u :
  String.get 14 (Uuid.str u) = Some (Str.hex_digit (Uuid.version u)).
Proof. reflexivity. Qed.

Lemma uuid_str_length u : String.length (Uuid.str u) = 36%nat.
Proof. reflexivity. Qed.

(** ** Running the handlers *)

Lemma bind_ok {A B} (m : M A) (k : A -> M B) w a w' :
  m w = (Ok a, w') -> bind m k w = k a w'.
Proof. intros H. unfold bind. now rewrite H. Qed.

Lemma bind_raise {A B} (m : M A) (k : A -> M B) w e w' :
  m w = (Raise e, w') -> bind m k w = (Raise e, w').
Proof. intros H. unfold bind. now rewrite H. Qed.

Lemma log_record_of_plain now name level msg :
  log_record_of now (Logging.mkLogRecord name level msg ∅)
  = [("@timestamp", VStr (Datetime.isoformat now +:+ "Z"));
     ("level", VStr (Logging.getLevelName level));
     ("logger", VStr name); ("message", VStr msg)].
Proof. reflexivity. Qed.

Lemma logger_handle_run cfg record w :
  Logging.INFO <= Logging.levelno record ->
  exists w', logger_handle cfg record w = (Ok tt, w') /\ logged record w w'.
Proof.
  intros Hlvl. apply Z.leb_le in Hlvl.
  unfold logger_handle, handlers.
  destruct (String.eqb (ENV cfg) "dev"); cbn [app callHandlers];
    unfold bind, emit, format, bind, utcnow, json_dumps, write_line, ret;
    cbn [Logging.h_level Logging.h_stream file_handler console_handler];
    rewrite Hlvl; cbn;
    (eexists; split; [reflexivity | constructor; cbn; try reflexivity; lia]).
Qed.

Lemma logger_error_run cfg msg w :
  exists w', logger_error cfg msg w = (Ok tt, w')
    /\ logged (Logging.mkLogRecord "myapp" Logging.ERROR msg ∅) w w'.
Proof.
  unfold logger_error, logger_log. cbn [Z.leb logger_level Logging.INFO Logging.ERROR].
  change (20 <=? 40) with true. cbn iota.
  apply logger_handle_run. cbn. unfold Logging.INFO, Logging.ERROR. lia.
Qed.

Lemma logger_info_run cfg msg extra w :
  exists w', logger_info cfg msg extra w = (Ok tt, w')
    /\ logged (Logging.mkLogRecord "myapp" Logging.INFO msg extra) w w'.
Proof.
  unfold logger_info, logger_log.
  change (logger_level <=? Logging.INFO) with true. cbn iota.
  apply logger_handle_run. cbn. unfold Logging.INFO. lia.
Qed.

(** A sink submission inside [try/except]: the call is recorded, the
    result never raises, and a failure is reported through the logger. *)
Lemma submit_run cfg index doc tag w :
  let call := CallIndex index doc true in
  exists w' ts,
    try_except (client_index index doc true ;;; ret tt)
      (fun e => logger_error cfg
                  ("OpenSearch indexing error (" +:+ tag +:+ "): " +:+ exn_str e)) w
    = (Ok tt, w')
    /\ client_calls w' = client_calls w ++ [call]
    /\ file_log w'
       = file_log w ++ failure_lines (float_repr w) tag ts
                         (sink w (length (client_calls w)) call)
    /\ (ticks w <= ticks w')%nat.
Proof.
  intros call. unfold try_except, bind, client_index, client_call, ret.
  fold call. destruct (sink w (length (client_calls w)) call) as [v|e] eqn:Hout.
  - eexists; exists ""; split; [reflexivity|]. cbn.
    split; [reflexivity | split; [symmetry; apply app_nil_r | lia]].
  - match goal with |- context [logger_error cfg ?m ?w1] =>
      destruct (logger_error_run cfg m w1) as (w' & Hrun & Hlg) end.
    exists w'. eexists. split; [exact Hrun|].
    destruct Hlg as [Hc _ _ Hf _ Hcalls Ht Hfile]. cbn in *.
    split; [exact Hcalls|]. rewrite Hfile. split; [reflexivity | lia].
Qed.

Ltac run_bind := erewrite bind_ok by reflexivity.

(** The middleware, when the downstream handler returns a response. *)
Lemma log_requests_run cfg request call_next w response w2 :
  call_next request (entered w) = (Ok response, w2) ->
  exists w' info ts,
    log_requests cfg request call_next w = (Ok response, w')
    /\ client_calls w'
       = client_calls w2 ++ [telemetry_call cfg w w2 request response]
    /\ file_log w'
       = file_log w2 ++ info ::
           failure_lines (float_repr w2) "request log" ts
             (sink w2 (length (client_calls w2))
                (telemetry_call cfg w w2 request response)).
Proof.
  intros Hnext. unfold log_requests.
  run_bind. run_bind. erewrite bind_ok by exact Hnext.
  run_bind. run_bind. cbv zeta.
  match goal with |- context [bind (logger_handle cfg ?r) _ ?w3] =>
    destruct (logger_handle_run cfg r w3) as (w4 & Hrun & Hlg);
      [cbn; unfold Logging.INFO; lia|]
  end.
  erewrite bind_ok by exact Hrun.
  destruct (submit_run cfg (REQUEST_INDEX cfg)
              (telemetry_doc w w2 request response) "request log" w4)
    as (w5 & ts & Hsub & Hcalls & Hfile & _).
  erewrite bind_ok by exact Hsub. unfold ret.
  destruct Hlg as [Hc _ _ Hf Hs Hcalls4 _ Hfile4]. cbn in Hc, Hf, Hs, Hcalls4, Hfile4.
  eexists w5, _, ts. split; [reflexivity|].
  rewrite Hcalls, Hfile, Hcalls4, Hfile4, Hf, Hs.
  split; [reflexivity|]. rewrite <- app_assoc. reflexivity.
Qed.

(** The login handler: it always returns the payload. *)
Lemma user_login_run cfg user_id w :
  exists w' info ts k,
    user_login cfg user_id w = (Ok (login_payload user_id), w')
    /\ (ticks w <= k < ticks w')%nat
    /\ client_calls w'
       = client_calls w
           ++ [CallIndex (BUSINESS_INDEX cfg) (login_doc (utc_clock w k) user_id) true]
    /\ file_log w'
       = file_log w ++ info ::
           failure_lines (float_repr w) "business log" ts
             (sink w (length (client_calls w))
                (CallIndex (BUSINESS_INDEX cfg)
                   (login_doc (utc_clock w k) user_id) true)).
Proof.
  unfold user_login.
  match goal with |- context [bind (logger_info cfg ?m ?x) _ ?w0] =>
    destruct (logger_info_run cfg m x w0) as (w1 & Hrun & Hlg) end.
  destruct Hlg as [Hc _ _ Hf Hs Hcalls1 Hticks Hfile1].
  destruct (submit_run cfg (BUSINESS_INDEX cfg)
              (login_doc (utc_clock w1 (ticks w1)) user_id) "business log"
              (snd (utcnow w1)))
    as (w3 & ts & Hsub & Hcalls & Hfile & Ht3).
  cbn in Hcalls, Hfile, Ht3.
  eexists w3, _, ts, (ticks w1).
  erewrite bind_ok by exact Hrun. run_bind. cbv zeta.
  erewrite bind_ok by exact Hsub. unfold ret.
  split; [reflexivity|].
  rewrite Hcalls, Hfile, Hcalls1, Hfile1, Hf, Hs, Hc.
  split; [|split; [reflexivity | rewrite <- app_assoc; reflexivity]].
  lia.
Qed.

(** ** The endpoints *)

(** C9: GET /hello returns status 200 with the body
    [{"message": "Hello, world!"}] in every world: the handler neither
    reads nor changes anything, and the response that leaves the
    middleware is the same whether the document store answers or
    raises. *)
Theorem hello_independent_of_store (cfg : Config) (request : Request) (w : World) :
  hello w = (Ok (VDict [("message", VStr "Hello, world!")]), w)
  /\ route_hello w
     = (Ok (mkResponse 200 (VDict [("message", VStr "Hello, world!")])), w)
  /\ fst (log_requests cfg request (fun _ => route_hello) w)
     = Ok (mkResponse 200 (VDict [("message", VStr "Hello, world!")])).
Proof.
  split; [reflexivity|]. split; [reflexivity|].
  destruct (log_requests_run cfg request (fun _ => route_hello) w
              (mkResponse 200 (VDict [("message", VStr "Hello, world!")]))
              (entered w) eq_refl) as (w' & info & ts & Hrun & _).
  now rewrite Hrun.
Qed.

(** C7: every call of the login handler attempts exactly one submission
    to the business index, whatever the store then answers; its body
    holds a reading of the UTC clock taken during the call, the event
    ["user_login"], the given user id, the service name ["user-service"]
    and the message ["User login succeeded"]. *)
Theorem user_login_one_business_event (cfg : Config) (user_id : Z) (w : World) :
  exists k : nat,
    (ticks w <= k < ticks (snd (user_login cfg user_id w)))%nat
    /\ client_calls (snd (user_login cfg user_id w))
       = client_calls w
           ++ [CallIndex (BUSINESS_INDEX cfg)
                 (VDict [("@timestamp", VStr (Datetime.isoformat (utc_clock w k) +:+ "Z"));
                         ("event", VStr "user_login");
                         ("user_id", VInt user_id);
                         ("service", VStr "user-service");
                         ("message", VStr "User login succeeded")])
                 true].
Proof.
  destruct (user_login_run cfg user_id w) as (w' & info & ts & k & Hrun & Hk & Hcalls & _).
  exists k. rewrite Hrun. cbn [snd]. split; [exact Hk | exact Hcalls].
Qed.

(** C1: when the submission to the business index raises [e], the login
    handler writes an ERROR record whose message holds the tag
    "business log" and the cause [str(e)], and returns
    [{"status": "ok", "user_id": user_id}] with status 200; that payload
    is the one it returns in every world, so also when the store
    accepts the document. *)
Theorem user_login_survives_sink_failure
    (cfg : Config) (user_id : Z) (w : World) (e : Exn) :
  (forall doc, sink w (length (client_calls w))
                 (CallIndex (BUSINESS_INDEX cfg) doc true) = Raise e) ->
  exists w' info timestamp msg,
    user_login cfg user_id w
    = (Ok (VDict [("status", VStr "ok"); ("user_id", VInt user_id)]), w')
    /\ file_log w' = file_log w ++ [info; error_line (float_repr w) timestamp msg]
    /\ Str.contains "business log" msg
    /\ Str.contains (exn_str e) msg
    /\ fst (route_user_login cfg user_id w)
       = Ok (mkResponse 200 (VDict [("status", VStr "ok"); ("user_id", VInt user_id)]))
    /\ (forall w_ok : World,
          fst (user_login cfg user_id w_ok)
          = Ok (VDict [("status", VStr "ok"); ("user_id", VInt user_id)])).
Proof.
  intros Hdown.
  destruct (user_login_run cfg user_id w)
    as (w' & info & ts & k & Hrun & _ & _ & Hfile).
  rewrite Hdown in Hfile. cbn [failure_lines] in Hfile.
  exists w', info, ts. eexists. split; [exact Hrun|]. split; [exact Hfile|].
  split; [apply (contains_intro "OpenSearch indexing error (")|].
  split; [apply (contains_suffix "OpenSearch indexing error (business log): ")|].
  split.
  - unfold route_user_login. erewrite bind_ok by exact Hrun. reflexivity.
  - intros w_ok. destruct (user_login_run cfg user_id w_ok) as (? & ? & ? & ? & -> & _).
    reflexivity.
Qed.

Lemma user_login_survives_sink_failure_witness :
  exists w' info timestamp msg,
    user_login Examples.cfg_default 42 Examples.world_down
    = (Ok (VDict [("status", VStr "ok"); ("user_id", VInt 42)]), w')
    /\ file_log w'
       = file_log Examples.world_down
           ++ [info; error_line (float_repr Examples.world_down) timestamp msg]
    /\ Str.contains "business log" msg
    /\ Str.contains (exn_str Examples.connection_refused) msg
    /\ fst (route_user_login Examples.cfg_default 42 Examples.world_down)
       = Ok (mkResponse 200 (VDict [("status", VStr "ok"); ("user_id", VInt 42)]))
    /\ (forall w_ok : World,
          fst (user_login Examples.cfg_default 42 w_ok)
          = Ok (VDict [("status", VStr "ok"); ("user_id", VInt 42)])).
Proof.
  apply (user_login_survives_sink_failure Examples.cfg_default 42
           Examples.world_down Examples.connection_refused).
  intros doc. reflexivity.
Defined.

(** ** The middleware *)

(** C2: when the downstream handler returns [response], the middleware
    returns that same response, whether the submission of the telemetry
    document succeeds or raises; when it raises [e], one ERROR record is
    written whose message holds the tag "request log" and the cause
    [str(e)]; when it succeeds, nothing is written beyond the request
    line. *)
Theorem log_requests_response_unchanged
    (cfg : Config) (request : Request) (call_next : Request -> M Response)
    (w : World) (response : Response) (w2 : World) :
  call_next request (entered w) = (Ok response, w2) ->
  exists w' info timestamp,
    log_requests cfg request call_next w = (Ok response, w')
    /\ (forall e,
          sink w2 (length (client_calls w2))
            (telemetry_call cfg w w2 request response) = Raise e ->
          exists msg,
            file_log w' = file_log w2 ++ [info; error_line (float_repr w2) timestamp msg]
            /\ Str.contains "request log" msg
            /\ Str.contains (exn_str e) msg)
    /\ (forall v,
          sink w2 (length (client_calls w2))
            (telemetry_call cfg w w2 request response) = Ok v ->
          file_log w' = file_log w2 ++ [info]).
Proof.
  intros Hnext.
  destruct (log_requests_run cfg request call_next w response w2 Hnext)
    as (w' & info & ts & Hrun & _ & Hfile).
  exists w', info, ts. split; [exact Hrun|]. split.
  - intros e He. rewrite He in Hfile. cbn [failure_lines] in Hfile.
    eexists. split; [exact Hfile|].
    split; [apply (contains_intro "OpenSearch indexing error (")|].
    apply (contains_suffix "OpenSearch indexing error (request log): ").
  - intros v Hv. rewrite Hv in Hfile. exact Hfile.
Qed.

Lemma log_requests_response_unchanged_witness :
  exists w' info timestamp,
    log_requests Examples.cfg_default Examples.get_hello (fun _ => route_hello)
      Examples.world_down
    = (Ok (mkResponse 200 (VDict [("message", VStr "Hello, world!")])), w')
    /\ (forall e,
          sink (entered Examples.world_down)
            (length (client_calls (entered Examples.world_down)))
            (telemetry_call Examples.cfg_default Examples.world_down
               (entered Examples.world_down) Examples.get_hello
               (mkResponse 200 (VDict [("message", VStr "Hello, world!")])))
          = Raise e ->
          exists msg,
            file_log w'
            = file_log (entered Examples.world_down)
                ++ [info; error_line (float_repr (entered Examples.world_down))
                            timestamp msg]
            /\ Str.contains "request log" msg
            /\ Str.contains (exn_str e) msg)
    /\ (forall v,
          sink (entered Examples.world_down)
            (length (client_calls (entered Examples.world_down)))
            (telemetry_call Examples.cfg_default Examples.world_down
               (entered Examples.world_down) Examples.get_hello
               (mkResponse 200 (VDict [("message", VStr "Hello, world!")])))
          = Ok v ->
          file_log w' = file_log (entered Examples.world_down) ++ [info]).
Proof.
  apply (log_requests_response_unchanged Examples.cfg_default Examples.get_hello
           (fun _ => route_hello) Examples.world_down).
  reflexivity.
Defined.

(** C6, as the code has it: when the downstream handler returns a
    response, the middleware makes exactly one call on the client after
    it, the submission of one document to the request index; the
    document holds the request id, a version-4 UUID made from a random
    draw that no earlier request used, the method and path of the
    request, the status code of the response, and as [duration_s] the
    distance in seconds from the clock reading taken before the
    downstream handler ran to the one taken after it, which is at least
    zero when the clock was not set back in between. *)
Theorem log_requests_one_telemetry_doc
    (cfg : Config) (request : Request) (call_next : Request -> M Response)
    (w : World) (response : Response) (w2 : World) :
  call_next request (entered w) = (Ok response, w2) ->
  let start_time := utc_clock w (ticks w) in
  let end_time := utc_clock w2 (ticks w2) in
  let id := Uuid.uuid4 (urandom w (draws w)) in
  exists duration : Q,
    client_calls (entered w) = client_calls w
    /\ client_calls (snd (log_requests cfg request call_next w))
       = client_calls w2
           ++ [CallIndex (REQUEST_INDEX cfg)
                 (VDict [("@timestamp", VStr (Datetime.isoformat start_time +:+ "Z"));
                         ("request_id", VStr (Uuid.str id));
                         ("method", VStr (method request));
                         ("path", VStr (url_path request));
                         ("status_code", VInt (status_code response));
                         ("duration_s", VFloat duration)])
                 true]
    /\ draws (entered w) = S (draws w)
    /\ Uuid.version id = 4
    /\ Uuid.variant_bits id = 2
    /\ String.get 14 (Uuid.str id) = Some "4"%char
    /\ duration
       = Qmake (Datetime.to_micros end_time - Datetime.to_micros start_time) 1000000
    /\ (Datetime.to_micros start_time <= Datetime.to_micros end_time ->
        (0 <= duration)%Q).
Proof.
  intros Hnext start_time end_time id.
  destruct (log_requests_run cfg request call_next w response w2 Hnext)
    as (w' & info & ts & Hrun & Hcalls & _).
  exists (Datetime.total_seconds (Datetime.sub end_time start_time)).
  split; [reflexivity|]. split; [rewrite Hrun; exact Hcalls|].
  split; [reflexivity|]. split; [apply uuid4_version|].
  split; [apply uuid4_variant|].
  split; [subst id; rewrite uuid_str_version_digit, uuid4_version; reflexivity|].
  split; [apply total_seconds_sub | apply duration_nonneg].
Qed.

Lemma log_requests_one_telemetry_doc_witness :
  exists duration : Q,
    client_calls (entered Examples.world_down) = client_calls Examples.world_down
    /\ client_calls
         (snd (log_requests Examples.cfg_default Examples.post_login
                 (fun _ => route_user_login Examples.cfg_default 42)
                 Examples.world_down))
       = client_calls
           (snd (route_user_login Examples.cfg_default 42 (entered Examples.world_down)))
           ++ [CallIndex "app-logs-requests"
                 (VDict [("@timestamp", VStr "2024-01-02T03:04:00Z");
                         ("request_id", VStr "00000000-0000-4000-8000-000000000000");
                         ("method", VStr "POST");
                         ("path", VStr "/user/42/login");
                         ("status_code", VInt 200);
                         ("duration_s", VFloat duration)])
                 true]
    /\ draws (entered Examples.world_down) = 1%nat
    /\ Uuid.version (Uuid.uuid4 0) = 4
    /\ Uuid.variant_bits (Uuid.uuid4 0) = 2
    /\ String.get 14 (Uuid.str (Uuid.uuid4 0)) = Some "4"%char
    /\ duration = Qmake 4000000 1000000
    /\ (Datetime.to_micros (Examples.clock_forward 0)
        <= Datetime.to_micros (Examples.clock_forward 4) ->
        (0 <= duration)%Q).
Proof.
  apply (log_requests_one_telemetry_doc Examples.cfg_default Examples.post_login
           (fun _ => route_user_login Examples.cfg_default 42) Examples.world_down
           (mkResponse 200 (VDict [("status", VStr "ok"); ("user_id", VInt 42)]))
           (snd (route_user_login Examples.cfg_default 42 (entered Examples.world_down)))).
  vm_compute. reflexivity.
Defined.

(** C6 as stated fails twice.  A request for the business logs while the
    store is down: the search raises inside the downstream handler, the
    exception passes through the middleware, and no telemetry document
    is attempted.  A request served while the wall clock is set back:
    the one telemetry document carries a negative [duration_s]. *)
Lemma telemetry_doc_not_for_every_request :
  (let w' :=
     snd (log_requests Examples.cfg_default Examples.get_logs
            (fun _ => route_get_business_logs Examples.cfg_default
                        None None None None None)
            Examples.world_down) in
   fst (log_requests Examples.cfg_default Examples.get_logs
          (fun _ => route_get_business_logs Examples.cfg_default
                      None None None None None)
          Examples.world_down) = Raise Examples.connection_refused
   /\ indexed_docs (REQUEST_INDEX Examples.cfg_default) (client_calls w') = []
   /\ file_log w' = [])
  /\ (exists doc duration,
        indexed_docs (REQUEST_INDEX Examples.cfg_default)
          (client_calls
             (snd (log_requests Examples.cfg_default Examples.post_login
                     (fun _ => route_user_login Examples.cfg_default 42)
                     Examples.world_clock_set_back)))
        = [doc]
        /\ getitem doc "duration_s" = Ok (VFloat duration)
        /\ (duration < 0)%Q).
Proof.
  split.
  - vm_compute. repeat split.
  - eexists. exists (Qmake (-3000000) 1000000).
    split; [vm_compute; reflexivity|]. split; [reflexivity|]. reflexivity.
Qed.

(** C10: the ["@timestamp"] of the telemetry document is the clock
    reading taken on arrival, before the downstream handler is entered,
    and [duration_s] is measured from that same reading: the timestamp
    plus the duration is the instant read after the handler returned,
    and the timestamp is not the text of that later reading unless the
    two print alike. *)
Theorem telemetry_timestamp_is_start
    (cfg : Config) (request : Request) (call_next : Request -> M Response)
    (w : World) (response : Response) (w2 : World) :
  call_next request (entered w) = (Ok response, w2) ->
  let start_time := utc_clock w (ticks w) in
  let end_time := utc_clock w2 (ticks w2) in
  exists doc duration,
    last (client_calls (snd (log_requests cfg request call_next w)))
    = Some (CallIndex (REQUEST_INDEX cfg) doc true)
    /\ getitem doc "@timestamp" = Ok (VStr (Datetime.isoformat start_time +:+ "Z"))
    /\ getitem doc "duration_s" = Ok (VFloat duration)
    /\ ticks (entered w) = S (ticks w)
    /\ (instant start_time + duration == instant end_time)%Q
    /\ (Datetime.isoformat start_time <> Datetime.isoformat end_time ->
        getitem doc "@timestamp" <> Ok (VStr (Datetime.isoformat end_time +:+ "Z"))).
Proof.
  intros Hnext start_time end_time.
  destruct (log_requests_run cfg request call_next w response w2 Hnext)
    as (w' & info & ts & Hrun & Hcalls & _).
  exists (telemetry_doc w w2 request response),
         (Datetime.total_seconds (Datetime.sub end_time start_time)).
  rewrite Hrun. cbn [snd]. rewrite Hcalls.
  split; [apply last_snoc|]. split; [reflexivity|]. split; [reflexivity|].
  split; [reflexivity|]. split; [apply instant_plus_duration|].
  intros Hne Heq. apply Hne.
  change (getitem (telemetry_doc w w2 request response) "@timestamp")
    with (Ok (VStr (Datetime.isoformat start_time +:+ "Z"))) in Heq.
  injection Heq as Heq. now apply append_inv_tail in Heq.
Qed.

Lemma telemetry_timestamp_is_start_witness :
  exists doc duration,
    last (client_calls
            (snd (log_requests Examples.cfg_default Examples.post_login
                    (fun _ => route_user_login Examples.cfg_default 42)
                    Examples.world_up)))
    = Some (CallIndex "app-logs-requests" doc true)
    /\ getitem doc "@timestamp" = Ok (VStr "2024-01-02T03:04:00Z")
    /\ getitem doc "duration_s" = Ok (VFloat duration)
    /\ ticks (entered Examples.world_up) = 1%nat
    /\ (instant (Examples.clock_forward 0) + duration
        == instant (Examples.clock_forward 3))%Q
    /\ (Datetime.isoformat (Examples.clock_forward 0)
        <> Datetime.isoformat (Examples.clock_forward 3) ->
        getitem doc "@timestamp" <> Ok (VStr "2024-01-02T03:04:03Z")).
Proof.
  apply (telemetry_timestamp_is_start Examples.cfg_default Examples.post_login
           (fun _ => route_user_login Examples.cfg_default 42) Examples.world_up
           (mkResponse 200 (VDict [("status", VStr "ok"); ("user_id", VInt 42)]))
           (snd (route_user_login Examples.cfg_default 42 (entered Examples.world_up)))).
  vm_compute. reflexivity.
Defined.

(** ** The query endpoint *)

(** C3: the query body is a [bool]/[must] filter whose clauses are: one
    [term] clause for each exact-match filter that is supplied, with its
    value; one [range] clause on ["@timestamp"] exactly when a time
    bound is supplied, holding [gte] exactly when [start_time] is
    supplied and [lte] exactly when [end_time] is, and no other key;
    nothing else, so no clause at all when no filter is supplied.  The
    body sorts by ["@timestamp"] descending and carries the size. *)
Theorem query_body_shape
    (user_id : option Z) (event : option string)
    (start_time end_time : option Datetime.datetime) (size : Z) :
  let clauses := must_clauses user_id event start_time end_time in
  let ranges := omap (range_on "@timestamp") clauses in
  query_body user_id event start_time end_time size
  = VDict [("query", VDict [("bool", VDict [("must", VList clauses)])]);
           ("sort", VList [VDict [("@timestamp", VDict [("order", VStr "desc")])]]);
           ("size", VInt size)]
  /\ omap (term_on "user_id") clauses = option_list (VInt <$> user_id)
  /\ omap (term_on "event") clauses = option_list (VStr <$> event)
  /\ (length ranges <= 1)%nat
  /\ (ranges = [] <-> start_time = None /\ end_time = None)
  /\ Forall (fun bounds =>
               Dict.get "gte" bounds = time_bound start_time
               /\ Dict.get "lte" bounds = time_bound end_time
               /\ (forall k, k ∈ Dict.keys bounds -> k = "gte" \/ k = "lte"))
            ranges
  /\ length clauses
     = (length (option_list user_id) + length (option_list event) + length ranges)%nat
  /\ (user_id = None -> event = None -> start_time = None -> end_time = None ->
      clauses = []).
Proof.
  destruct user_id as [u|], event as [e|], start_time as [t1|], end_time as [t2|];
    cbn; (split; [reflexivity|]); (split; [reflexivity|]); (split; [reflexivity|]);
    (split; [lia|]);
    (split; [split; [intros H; first [discriminate H | split; reflexivity]
                    | intros [H1 H2];
                      first [discriminate H1 | discriminate H2 | reflexivity]]|]);
    (split; [first [apply List.Forall_nil
                   | apply List.Forall_cons; [|apply List.Forall_nil];
                     split; [reflexivity|]; split; [reflexivity|];
                     cbn; intros k Hk%list_elem_of_In; cbn in Hk;
                     intuition congruence]|]);
    (split; [reflexivity|]); intros; congruence.
Qed.

Lemma validate_size_in_range n :
  1 <= n <= 1000 -> validate_query size_param (Some n) = Accepted n.
Proof.
  intros Hn. unfold validate_query, size_param. cbn [q_ge q_le].
  destruct (Z.ltb_spec n 1); [lia|]. destruct (Z.ltb_spec 1000 n); [lia|].
  reflexivity.
Qed.

Lemma validate_size_out_of_range n :
  ~ (1 <= n <= 1000) ->
  exists error_type, validate_query size_param (Some n) = Rejected error_type.
Proof.
  intros Hn. unfold validate_query, size_param. cbn [q_ge q_le].
  destruct (Z.ltb_spec n 1); [eauto|]. destruct (Z.ltb_spec 1000 n); [eauto|].
  lia.
Qed.

(** The body of the query endpoint calls the client once, with the
    query built from its parameters, whatever comes back. *)
Lemma get_business_logs_calls cfg user_id event start_time end_time n w :
  client_calls (snd (get_business_logs cfg user_id event start_time end_time n w))
  = client_calls w
      ++ [CallSearch (BUSINESS_INDEX cfg)
            (query_body user_id event start_time end_time n)].
Proof.
  unfold get_business_logs, bind, client_search, client_call, lift, ret.
  repeat match goal with
         | |- context [match ?r with Ok _ => _ | Raise _ => _ end] =>
             destruct r
         end; reflexivity.
Qed.

Lemma route_accepted_calls cfg user_id event start_time end_time size n w :
  validate_query size_param size = Accepted n ->
  calls_since w
    (snd (route_get_business_logs cfg user_id event start_time end_time size w))
  = [CallSearch (BUSINESS_INDEX cfg)
       (query_body user_id event start_time end_time n)].
Proof.
  intros Hv. unfold calls_since, route_get_business_logs. rewrite Hv.
  pose proof (get_business_logs_calls cfg user_id event start_time end_time n w)
    as Hcalls.
  unfold bind.
  destruct (get_business_logs cfg user_id event start_time end_time n w)
    as [[v|e] w1]; cbn [snd] in Hcalls |- *.
  - unfold lift, ret. destruct (validate_list_of_dict v); cbn [snd];
      rewrite Hcalls; apply drop_app_length.
  - rewrite Hcalls. apply drop_app_length.
Qed.

(** C4: the size bound of GET /logs/business is 50 when the parameter is
    absent; a supplied size is accepted, and the body entered with it,
    exactly when it lies in [1, 1000]; any other size is answered with a
    4xx response while the world is left as it was, so the body did not
    run.  Sizes 0 and 1001 are rejected and 1000 is accepted. *)
Theorem size_bound_validation
    (cfg : Config) (user_id : option Z) (event : option string)
    (start_time end_time : option Datetime.datetime) (n : Z) (w : World) :
  let route := route_get_business_logs cfg user_id event start_time end_time in
  let search size :=
    CallSearch (BUSINESS_INDEX cfg)
      (query_body user_id event start_time end_time size) in
  calls_since w (snd (route None w)) = [search 50]
  /\ ((exists m, validate_query size_param (Some n) = Accepted m) <-> 1 <= n <= 1000)
  /\ (1 <= n <= 1000 -> calls_since w (snd (route (Some n) w)) = [search n])
  /\ (~ (1 <= n <= 1000) ->
      exists response,
        route (Some n) w = (Ok response, w) /\ 400 <= status_code response < 500)
  /\ route (Some 0) w = (Ok (validation_error_response "size" "greater_than_equal"), w)
  /\ route (Some 1001) w = (Ok (validation_error_response "size" "less_than_equal"), w)
  /\ calls_since w (snd (route (Some 1000) w)) = [search 1000].
Proof.
  intros route search. subst route search. cbv beta.
  split; [now apply route_accepted_calls|].
  split.
  { split.
    - intros [m Hm]. destruct (Z.le_gt_cases 1 n) as [H1|H1];
        [destruct (Z.le_gt_cases n 1000) as [H2|H2]; [lia|]|];
        destruct (validate_size_out_of_range n ltac:(lia)) as [err Herr];
        congruence.
    - intros Hn. exists n. now apply validate_size_in_range. }
  split; [intros Hn; now apply route_accepted_calls, validate_size_in_range|].
  split.
  { intros Hn. destruct (validate_size_out_of_range n Hn) as [err Herr].
    exists (validation_error_response "size" err).
    unfold route_get_business_logs. rewrite Herr. split; [reflexivity|].
    cbn. lia. }
  split; [reflexivity|]. split; [reflexivity|].
  now apply route_accepted_calls.
Qed.

Lemma sources_of_hits hits srcs :
  Forall2 (fun hit src => getitem hit "_source" = Ok (VDict src)) hits srcs ->
  sources hits = Ok (map VDict srcs).
Proof.
  induction 1 as [|hit src hits srcs Hhit _ IH]; [reflexivity|].
  cbn [sources map]. now rewrite Hhit, IH.
Qed.

Lemma forallb_is_dict srcs : forallb is_dict (map VDict srcs) = true.
Proof. induction srcs; [reflexivity | assumption]. Qed.

(** C8: when the store answers the search with a response whose
    [hits.hits] is the list [hits], each hit holding a document body
    under ["_source"], the query endpoint returns the list of those
    bodies in the same order with status 200; with no hit it returns the
    empty list with status 200. *)
Theorem business_logs_returns_sources
    (cfg : Config) (user_id : option Z) (event : option string)
    (start_time end_time : option Datetime.datetime) (size : option Z) (n : Z)
    (w : World) (resp hits_obj : value) (hits : list value)
    (srcs : list (list (string * value))) :
  validate_query size_param size = Accepted n ->
  sink w (length (client_calls w))
    (CallSearch (BUSINESS_INDEX cfg)
       (query_body user_id event start_time end_time n)) = Ok resp ->
  getitem resp "hits" = Ok hits_obj ->
  getitem hits_obj "hits" = Ok (VList hits) ->
  Forall2 (fun hit src => getitem hit "_source" = Ok (VDict src)) hits srcs ->
  fst (get_business_logs cfg user_id event start_time end_time n w)
  = Ok (VList (map VDict srcs))
  /\ fst (route_get_business_logs cfg user_id event start_time end_time size w)
     = Ok (mkResponse 200 (VList (map VDict srcs)))
  /\ (hits = [] ->
      fst (route_get_business_logs cfg user_id event start_time end_time size w)
      = Ok (mkResponse 200 (VList []))).
Proof.
  intros Hsize Hsink Hresp Hobj Hhits.
  assert (get_business_logs cfg user_id event start_time end_time n w
          = (Ok (VList (map VDict srcs)),
             snd (get_business_logs cfg user_id event start_time end_time n w)))
    as Hrun.
  { unfold get_business_logs, bind, client_search, client_call, lift, ret.
    rewrite Hsink, Hresp, Hobj. cbn [iterate].
    rewrite (sources_of_hits hits srcs Hhits). reflexivity. }
  assert (fst (route_get_business_logs cfg user_id event start_time end_time size w)
          = Ok (mkResponse 200 (VList (map VDict srcs)))) as Hroute.
  { unfold route_get_business_logs. rewrite Hsize.
    erewrite bind_ok by exact Hrun. unfold bind, lift, ret, validate_list_of_dict.
    rewrite forallb_is_dict. reflexivity. }
  split; [now rewrite Hrun|]. split; [exact Hroute|].
  intros ->. inversion Hhits; subst. exact Hroute.
Qed.

Lemma business_logs_returns_sources_witness :
  fst (get_business_logs Examples.cfg_default (Some 7) (Some "user_login")
         None None 50 Examples.world_up)
  = Ok (VList (map VDict [Examples.stored_login 9 7; Examples.stored_login 5 7]))
  /\ fst (route_get_business_logs Examples.cfg_default (Some 7) (Some "user_login")
            None None None Examples.world_up)
     = Ok (mkResponse 200
             (VList (map VDict [Examples.stored_login 9 7; Examples.stored_login 5 7])))
  /\ ([Examples.hit "b" (Examples.stored_login 9 7);
       Examples.hit "a" (Examples.stored_login 5 7)] = [] ->
      fst (route_get_business_logs Examples.cfg_default (Some 7) (Some "user_login")
             None None None Examples.world_up)
      = Ok (mkResponse 200 (VList []))).
Proof.
  apply (business_logs_returns_sources Examples.cfg_default (Some 7)
           (Some "user_login") None None None 50 Examples.world_up
           (Examples.search_response
              [Examples.hit "b" (Examples.stored_login 9 7);
               Examples.hit "a" (Examples.stored_login 5 7)])
           (VDict [("total", VDict [("value", VInt 2)]);
                   ("hits", VList [Examples.hit "b" (Examples.stored_login 9 7);
                                   Examples.hit "a" (Examples.stored_login 5 7)])])).
  - reflexivity.
  - reflexivity.
  - reflexivity.
  - reflexivity.
  - repeat constructor.
Defined.

(** ** The formatter *)

Lemma get_copy_attr_other record k k' d :
  k <> k' -> Dict.get k (copy_attr record k' d) = Dict.get k d.
Proof.
  intros Hne. unfold copy_attr.
  destruct (Logging.attrs record !! k'); [now apply dict_get_set_ne | reflexivity].
Qed.

Lemma get_copy_attr_same record k d :
  Dict.get k d = None ->
  Dict.get k (copy_attr record k d) = Logging.attrs record !! k.
Proof.
  intros Hnone. unfold copy_attr.
  destruct (Logging.attrs record !! k); [apply dict_get_set_eq | exact Hnone].
Qed.

Lemma keys_set k v d x :
  x ∈ Dict.keys (Dict.set k v d) -> x = k \/ x ∈ Dict.keys d.
Proof.
  induction d as [|[k' v'] d IH]; cbn.
  - intros H%list_elem_of_singleton. now left.
  - destruct (String.eqb k k') eqn:E; cbn; intros H%elem_of_cons.
    + apply String.eqb_eq in E as <-. destruct H as [->|H]; [now left|].
      right. now apply list_elem_of_further.
    + destruct H as [->|H]; [right; apply list_elem_of_here|].
      destruct (IH H) as [->|Hin]; [now left|].
      right. now apply list_elem_of_further.
Qed.

Lemma NoDup_keys_set k v d :
  NoDup (Dict.keys d) -> NoDup (Dict.keys (Dict.set k v d)).
Proof.
  induction d as [|[k' v'] d IH]; cbn; intros Hnd.
  - apply NoDup_singleton.
  - apply NoDup_cons in Hnd as [Hnotin Hnd].
    destruct (String.eqb k k') eqn:E; cbn.
    + apply String.eqb_eq in E as <-. now apply NoDup_cons.
    + apply String.eqb_neq in E. apply NoDup_cons. split; [|now apply IH].
      intros [->|Hin]%keys_set; [now apply E | now apply Hnotin].
Qed.

Lemma keys_copy_attr record k d x :
  x ∈ Dict.keys (copy_attr record k d) -> x = k \/ x ∈ Dict.keys d.
Proof.
  unfold copy_attr. destruct (Logging.attrs record !! k); [apply keys_set | now right].
Qed.

Lemma NoDup_keys_copy_attr record k d :
  NoDup (Dict.keys d) -> NoDup (Dict.keys (copy_attr record k d)).
Proof.
  unfold copy_attr. destruct (Logging.attrs record !! k);
    [apply NoDup_keys_set | trivial].
Qed.

Ltac through_copy_attr :=
  unfold log_record_of;
  repeat first [ rewrite get_copy_attr_other by discriminate
               | rewrite get_copy_attr_same ];
  try reflexivity.

(** C5: the formatter returns the serialisation of one JSON object on a
    single line.  The object always has the keys ["@timestamp"],
    ["level"], ["logger"] and ["message"]; for each optional key it has
    the key exactly when the attribute is set on the record, with the
    value that was set, and looking the key up finds nothing when the
    attribute is not set; it has no other key and no key twice. *)
Theorem format_fields (record : Logging.LogRecord) (w : World) :
  (forall q, Str.all_chars Str.printable (float_repr w q) = true) ->
  exists (log_record : list (string * value)) (line : string),
    fst (format record w) = Ok line
    /\ line = Json.dumps (float_repr w) (VDict log_record)
    /\ Str.single_line line = true
    /\ Dict.get "@timestamp" log_record
       = Some (VStr (Datetime.isoformat (utc_clock w (ticks w)) +:+ "Z"))
    /\ Dict.get "level" log_record = Some (VStr (Logging.levelname record))
    /\ Dict.get "logger" log_record = Some (VStr (Logging.name record))
    /\ Dict.get "message" log_record = Some (VStr (Logging.getMessage record))
    /\ Forall (fun k =>
                 (k ∈ Dict.keys log_record <-> is_Some (Logging.attrs record !! k))
                 /\ Dict.get k log_record = Logging.attrs record !! k)
              optional_keys
    /\ (forall k, k ∈ Dict.keys log_record -> k ∈ required_keys ++ optional_keys)
    /\ NoDup (Dict.keys log_record).
Proof.
  intros Hfloat.
  exists (log_record_of (utc_clock w (ticks w)) record). eexists.
  split; [reflexivity|]. split; [reflexivity|].
  split; [apply printable_single_line, dumps_printable, Hfloat|].
  split; [through_copy_attr|]. split; [through_copy_attr|].
  split; [through_copy_attr|]. split; [through_copy_attr|].
  split.
  { unfold optional_keys.
    repeat (apply List.Forall_cons;
            [split; [rewrite <- dict_get_keys|]; through_copy_attr|]).
    apply List.Forall_nil. }
  split.
  { intros k Hk. unfold log_record_of in Hk.
    repeat (apply keys_copy_attr in Hk as [->|Hk];
            [apply list_elem_of_In; cbn; tauto|]).
    apply list_elem_of_In. apply list_elem_of_In in Hk. cbn in Hk |- *. tauto. }
  unfold log_record_of. repeat apply NoDup_keys_copy_attr.
  cbn. repeat (apply NoDup_cons; split; [rewrite list_elem_of_In; cbn; intuition discriminate|]).
  apply NoDup_nil_2.
Qed.

Lemma repr_whole_printable q :
  Str.all_chars Str.printable (Examples.repr_whole q) = true.
Proof. unfold Examples.repr_whole. now rewrite all_chars_app, of_Z_printable. Qed.

Lemma format_fields_witness :
  exists (log_record : list (string * value)) (line : string),
    fst (format Examples.sample_record Examples.world_up) = Ok line
    /\ line = Json.dumps Examples.repr_whole (VDict log_record)
    /\ Str.single_line line = true
    /\ Dict.get "@timestamp" log_record = Some (VStr "2024-01-02T03:04:00Z")
    /\ Dict.get "level" log_record = Some (VStr "INFO")
    /\ Dict.get "logger" log_record = Some (VStr "myapp")
    /\ Dict.get "message" log_record
       = Some (VStr (Logging.getMessage Examples.sample_record))
    /\ Forall (fun k =>
                 (k ∈ Dict.keys log_record
                  <-> is_Some (Logging.attrs Examples.sample_record !! k))
                 /\ Dict.get k log_record
                    = Logging.attrs Examples.sample_record !! k)
              optional_keys
    /\ (forall k, k ∈ Dict.keys log_record -> k ∈ required_keys ++ optional_keys)
    /\ NoDup (Dict.keys log_record).
Proof.
  apply (format_fields Examples.sample_record Examples.world_up).
  intros q. apply repr_whole_printable.
Defined.

(** ** The handlers on concrete worlds *)

(** An attribute set to None is written as null, an attribute that is
    not set is not written, and a line break in the message is escaped. *)
Example format_sample_record :
  fst (format Examples.sample_record Examples.world_up)
  = Ok (Json.dumps Examples.repr_whole
          (VDict [("@timestamp", VStr "2024-01-02T03:04:00Z");
                  ("level", VStr "INFO"); ("logger", VStr "myapp");
                  ("message", VStr (Logging.msg Examples.sample_record));
                  ("user_id", VNone); ("duration_s", VFloat 2)]))
  /\ Str.contains "\n" (Json.dumps Examples.repr_whole
                          (VStr (Logging.msg Examples.sample_record)))
  /\ Str.single_line (Logging.msg Examples.sample_record) = false.
Proof.
  split; [vm_compute; reflexivity|]. split; [|reflexivity].
  exists (Json.quote +:+ "line one"), ("line two" +:+ Json.quote).
  vm_compute. reflexivity.
Qed.

(** With the store down, a login still answers 200, one document is
    attempted on each index, and the file holds the login line, the
    business-log error, the request line and the request-log error. *)
Example login_with_store_down :
  let run := log_requests Examples.cfg_default Examples.post_login
               (fun _ => route_user_login Examples.cfg_default 42)
               Examples.world_down in
  fst run = Ok (mkResponse 200 (VDict [("status", VStr "ok"); ("user_id", VInt 42)]))
  /\ length (indexed_docs "app-logs-business" (client_calls (snd run))) = 1%nat
  /\ length (indexed_docs "app-logs-requests" (client_calls (snd run))) = 1%nat
  /\ length (file_log (snd run)) = 4%nat
  /\ stdout (snd run) = [].
Proof. vm_compute. repeat split. Qed.

(** In the dev environment every line also goes to the console. *)
Example login_in_dev_writes_console :
  let run := log_requests Examples.cfg_dev Examples.post_login
               (fun _ => route_user_login Examples.cfg_dev 42)
               Examples.world_up in
  ENV Examples.cfg_dev = "dev"
  /\ length (file_log (snd run)) = 2%nat
  /\ length (stdout (snd run)) = 2%nat.
Proof. vm_compute. repeat split. Qed.

(** A store without documents: the query endpoint answers 200 with the
    empty list. *)
Example empty_store_returns_empty_list :
  fst (route_get_business_logs Examples.cfg_default None None None None None
         Examples.world_empty)
  = Ok (mkResponse 200 (VList [])).
Proof. reflexivity. Qed.

(** A response without [hits] makes the query endpoint raise. *)
Example malformed_search_response_raises :
  fst (get_business_logs Examples.cfg_default None None None None 50
         (Examples.world Examples.clock_forward (fun _ _ => Ok (VDict []))))
  = Raise (mkExn "KeyError" "hits").
Proof. reflexivity. Qed.

(** * Further properties of the handlers *)

(** ** Exceptions of the downstream handler *)

Lemma log_requests_raise cfg request call_next w e w2 :
  call_next request (entered w) = (Raise e, w2) ->
  log_requests cfg request call_next w = (Raise e, w2).
Proof.
  intros Hnext. unfold log_requests. run_bind. run_bind.
  now apply bind_raise.
Qed.

(** X1: when the downstream handler raises, the middleware raises the
    same exception and leaves the world exactly as the handler left it:
    no clock reading, no log line and no telemetry document follow. *)
Theorem log_requests_propagates_downstream_exception
    (cfg : Config) (request : Request) (call_next : Request -> M Response)
    (w : World) (e : Exn) (w2 : World) :
  call_next request (entered w) = (Raise e, w2) ->
  log_requests cfg request call_next w = (Raise e, w2).
Proof. apply log_requests_raise. Qed.

Lemma log_requests_propagates_downstream_exception_witness :
  log_requests Examples.cfg_default Examples.get_logs
    (fun _ => route_get_business_logs Examples.cfg_default None None None None None)
    Examples.world_down
  = (Raise Examples.connection_refused,
     snd (route_get_business_logs Examples.cfg_default None None None None None
            (entered Examples.world_down))).
Proof.
  apply (log_requests_propagates_downstream_exception Examples.cfg_default
           Examples.get_logs
           (fun _ => route_get_business_logs Examples.cfg_default
                       None None None None None)
           Examples.world_down Examples.connection_refused).
  reflexivity.
Defined.

(** ** The query endpoint: what it touches and how it fails *)

(** X2: the body of the query endpoint only reads: whatever the store
    answers, it makes exactly one call on the client, the search on the
    business index built from its parameters, submits no document,
    writes no log line and reads neither the clock nor the random
    source. *)
Theorem get_business_logs_read_only
    (cfg : Config) (user_id : option Z) (event : option string)
    (start_time end_time : option Datetime.datetime) (n : Z) (w : World) :
  let w' := snd (get_business_logs cfg user_id event start_time end_time n w) in
  client_calls w'
  = client_calls w ++ [search_call cfg user_id event start_time end_time n]
  /\ (forall idx, indexed_docs idx (calls_since w w') = [])
  /\ file_log w' = file_log w
  /\ stdout w' = stdout w
  /\ ticks w' = ticks w
  /\ draws w' = draws w.
Proof.
  cbv zeta. unfold calls_since.
  rewrite get_business_logs_calls, drop_app_length.
  split; [reflexivity|]. split; [reflexivity|].
  unfold get_business_logs, bind, client_search, client_call, lift, ret.
  repeat match goal with
         | |- context [match ?r with Ok _ => _ | Raise _ => _ end] =>
             destruct r
         end; repeat split.
Qed.

Lemma get_business_logs_raise cfg user_id event start_time end_time n w e :
  sink w (length (client_calls w))
    (search_call cfg user_id event start_time end_time n) = Raise e ->
  get_business_logs cfg user_id event start_time end_time n w
  = (Raise e,
     mkWorld (utc_clock w) (ticks w) (urandom w) (draws w) (float_repr w)
       (sink w)
       (client_calls w ++ [search_call cfg user_id event start_time end_time n])
       (file_log w) (stdout w)).
Proof.
  intros Hsink. unfold get_business_logs, bind, client_search, client_call.
  unfold search_call in Hsink. rewrite Hsink. reflexivity.
Qed.

(** X3: when the search raises, nothing catches it: the query endpoint
    raises the same exception, and so does the middleware around it; the
    search is the only call made on the client, so no telemetry document
    is attempted, and no line is written to the file or the console. *)
Theorem business_logs_request_fails_with_the_store
    (cfg : Config) (request : Request) (user_id : option Z) (event : option string)
    (start_time end_time : option Datetime.datetime) (size : option Z) (n : Z)
    (w : World) (e : Exn) :
  validate_query size_param size = Accepted n ->
  sink w (length (client_calls w))
    (search_call cfg user_id event start_time end_time n) = Raise e ->
  fst (get_business_logs cfg user_id event start_time end_time n w) = Raise e
  /\ fst (route_get_business_logs cfg user_id event start_time end_time size w)
     = Raise e
  /\ exists w',
       log_requests cfg request
         (fun _ => route_get_business_logs cfg user_id event start_time end_time size)
         w
       = (Raise e, w')
       /\ client_calls w'
          = client_calls w ++ [search_call cfg user_id event start_time end_time n]
       /\ file_log w' = file_log w
       /\ stdout w' = stdout w.
Proof.
  intros Hsize Hsink.
  split; [now rewrite (get_business_logs_raise _ _ _ _ _ _ _ _ Hsink)|].
  split.
  - unfold route_get_business_logs. rewrite Hsize.
    erewrite bind_raise by (apply get_business_logs_raise; exact Hsink).
    reflexivity.
  - eexists. split.
    + apply log_requests_raise.
      unfold route_get_business_logs. rewrite Hsize.
      apply bind_raise. apply get_business_logs_raise. exact Hsink.
    + repeat split.
Qed.

Lemma business_logs_request_fails_with_the_store_witness :
  fst (get_business_logs Examples.cfg_default (Some 7) None None None 1000
         Examples.world_down)
  = Raise Examples.connection_refused
  /\ fst (route_get_business_logs Examples.cfg_default (Some 7) None None None
            (Some 1000) Examples.world_down)
     = Raise Examples.connection_refused
  /\ exists w',
       log_requests Examples.cfg_default Examples.get_logs
         (fun _ => route_get_business_logs Examples.cfg_default (Some 7) None None
                     None (Some 1000))
         Examples.world_down
       = (Raise Examples.connection_refused, w')
       /\ client_calls w'
          = client_calls Examples.world_down
              ++ [search_call Examples.cfg_default (Some 7) None None None 1000]
       /\ file_log w' = file_log Examples.world_down
       /\ stdout w' = stdout Examples.world_down.
Proof.
  apply (business_logs_request_fails_with_the_store Examples.cfg_default
           Examples.get_logs (Some 7) None None None (Some 1000) 1000
           Examples.world_down Examples.connection_refused).
  - reflexivity.
  - reflexivity.
Defined.







(** The partial store makes the endpoint raise on the second hit. *)
Example partial_store_raises :
  fst (get_business_logs Examples.cfg_default None None None None 50
         MoreExamples.world_partial)
  = Raise (mkExn "KeyError" "_source").
Proof. reflexivity. Qed.

(** ** The formatter, exactly *)

Lemma log_record_of_entries now record :
  log_record_of now record
  = [("@timestamp", VStr (Datetime.isoformat now +:+ "Z"));
     ("level", VStr (Logging.levelname record));
     ("logger", VStr (Logging.name record));
     ("message", VStr (Logging.getMessage record))]
    ++ omap (attr_entry record) optional_keys.
Proof.
  unfold log_record_of, copy_attr, optional_keys, attr_entry. cbn [omap list_omap].
  destruct (Logging.attrs record !! "request_id"),
           (Logging.attrs record !! "user_id"),
           (Logging.attrs record !! "event"),
           (Logging.attrs record !! "method"),
           (Logging.attrs record !! "path"),
           (Logging.attrs record !! "status_code"),
           (Logging.attrs record !! "duration_s"); reflexivity.
Qed.

(** X6: the dict the formatter serialises is the four required entries
    in the order ["@timestamp"], ["level"], ["logger"], ["message"],
    followed by one entry for each optional attribute that is set on the
    record, in the fixed order request_id, user_id, event, method, path,
    status_code, duration_s, whatever order the attributes were set
    in. *)
Theorem log_record_of_exact (now : Datetime.datetime) (record : Logging.LogRecord) :
  log_record_of now record
  = [("@timestamp", VStr (Datetime.isoformat now +:+ "Z"));
     ("level", VStr (Logging.levelname record));
     ("logger", VStr (Logging.name record));
     ("message", VStr (Logging.getMessage record))]
    ++ omap (attr_entry record) optional_keys.
Proof. apply log_record_of_entries. Qed.

(** ** The handlers of the logger *)

Lemma logger_handle_world cfg record w :
  Logging.INFO <= Logging.levelno record ->
  logger_handle cfg record w
  = (Ok tt,
     if String.eqb (ENV cfg) "dev"
     then wrote Stdout (formatted (tick w) record)
            (tick (wrote LogFile (formatted w record) (tick w)))
     else wrote LogFile (formatted w record) (tick w)).
Proof.
  intros Hlvl. apply Z.leb_le in Hlvl.
  unfold logger_handle, handlers.
  destruct (String.eqb (ENV cfg) "dev"); cbn [app callHandlers];
    unfold bind, emit, format, bind, utcnow, json_dumps, write_line, ret;
    cbn [Logging.h_level Logging.h_stream file_handler console_handler];
    rewrite Hlvl; reflexivity.
Qed.

(** X7: a record of level INFO or above that is handed to the logger is
    written to the log file, formatted with the current clock reading;
    it is written to the console as well exactly when the environment is
    dev, formatted a second time with the next clock reading, so the two
    copies of one record can carry different timestamps.  Nothing else
    changes: no call is made on the client and the random source is not
    read. *)
Theorem logger_handle_streams
    (cfg : Config) (record : Logging.LogRecord) (w : World) :
  Logging.INFO <= Logging.levelno record ->
  let dev := String.eqb (ENV cfg) "dev" in
  exists w',
    logger_handle cfg record w = (Ok tt, w')
    /\ file_log w' = file_log w ++ [formatted w record]
    /\ stdout w' = stdout w ++ (if dev then [formatted (tick w) record] else [])
    /\ ticks w' = (ticks w + (if dev then 2 else 1))%nat
    /\ client_calls w' = client_calls w
    /\ draws w' = draws w
    /\ same_oracles w w'.
Proof.
  intros Hlvl dev. subst dev. eexists. split; [now apply logger_handle_world|].
  destruct (String.eqb (ENV cfg) "dev"); cbn;
    (split; [reflexivity|]); (split; [rewrite ?app_nil_r; reflexivity|]);
    (split; [lia|]); repeat split.
Qed.

Lemma logger_handle_streams_witness :
  let dev := String.eqb (ENV Examples.cfg_dev) "dev" in
  exists w',
    logger_handle Examples.cfg_dev MoreExamples.request_record Examples.world_up
    = (Ok tt, w')
    /\ file_log w'
       = file_log Examples.world_up
           ++ [formatted Examples.world_up MoreExamples.request_record]
    /\ stdout w'
       = stdout Examples.world_up
           ++ (if dev
               then [formatted (tick Examples.world_up) MoreExamples.request_record]
               else [])
    /\ ticks w' = (ticks Examples.world_up + (if dev then 2 else 1))%nat
    /\ client_calls w' = client_calls Examples.world_up
    /\ draws w' = draws Examples.world_up
    /\ same_oracles Examples.world_up w'.
Proof.
  apply (logger_handle_streams Examples.cfg_dev MoreExamples.request_record
           Examples.world_up).
  vm_compute. discriminate.
Defined.

(** In dev the two copies of a record differ in their timestamp. *)
Example dev_copies_differ :
  let w' := snd (logger_handle Examples.cfg_dev MoreExamples.request_record
                   Examples.world_up) in
  file_log w'
  = [Json.dumps Examples.repr_whole
       (VDict [("@timestamp", VStr "2024-01-02T03:04:00Z"); ("level", VStr "INFO");
               ("logger", VStr "myapp"); ("message", VStr "served");
               ("request_id", VStr "00000000-0000-4000-8000-000000000000");
               ("method", VStr "GET"); ("status_code", VInt 200)])]
  /\ stdout w'
     = [Json.dumps Examples.repr_whole
          (VDict [("@timestamp", VStr "2024-01-02T03:04:01Z"); ("level", VStr "INFO");
                  ("logger", VStr "myapp"); ("message", VStr "served");
                  ("request_id", VStr "00000000-0000-4000-8000-000000000000");
                  ("method", VStr "GET"); ("status_code", VInt 200)])].
Proof. vm_compute. split; reflexivity. Qed.

(** ** The worlds the handlers leave *)

Lemma logger_handle_after cfg record w :
  Logging.INFO <= Logging.levelno record ->
  logger_handle cfg record w = (Ok tt, after_logging cfg record w).
Proof. apply logger_handle_world. Qed.

Lemma submit_world cfg index doc tag w :
  try_except (client_index index doc true ;;; ret tt)
    (fun e => logger_error cfg
                ("OpenSearch indexing error (" +:+ tag +:+ "): " +:+ exn_str e)) w
  = (Ok tt, after_submit cfg tag (CallIndex index doc true) w).
Proof.
  unfold try_except, bind, client_index, after_submit, called.
  unfold client_call at 1. cbn [fst snd].
  destruct (sink w (length (client_calls w)) (CallIndex index doc true)) as [v|e].
  - reflexivity.
  - unfold logger_error, logger_log.
    change (logger_level <=? Logging.ERROR) with true. cbn iota.
    apply logger_handle_after. cbn. unfold Logging.INFO, Logging.ERROR. lia.
Qed.

Lemma user_login_world cfg user_id w :
  let w1 := after_logging cfg (login_record user_id) w in
  user_login cfg user_id w
  = (Ok (login_payload user_id),
     after_submit cfg "business log"
       (CallIndex (BUSINESS_INDEX cfg)
          (login_doc (utc_clock w1 (ticks w1)) user_id) true)
       (tick w1)).
Proof.
  intros w1. unfold user_login, logger_info, logger_log.
  change (logger_level <=? Logging.INFO) with true. cbn iota.
  erewrite bind_ok
    by (apply (logger_handle_after cfg (login_record user_id)); cbn;
        unfold Logging.INFO; lia).
  fold w1. run_bind. cbv zeta.
  erewrite bind_ok by apply (submit_world cfg _ _ "business log").
  reflexivity.
Qed.

Lemma log_requests_world cfg request call_next w response w2 :
  call_next request (entered w) = (Ok response, w2) ->
  let duration :=
    Datetime.total_seconds
      (Datetime.sub (utc_clock w2 (ticks w2)) (utc_clock w (ticks w))) in
  let record :=
    Logging.setattr
      (Logging.setattr
         (Logging.setattr
            (Logging.setattr
               (Logging.setattr
                  (Logging.mkLogRecord "myapp" Logging.INFO
                     (request_message (request_id_of w) request response
                        (float_repr w2 duration)) ∅)
                  "request_id" (VStr (request_id_of w)))
               "method" (VStr (method request)))
            "path" (VStr (url_path request)))
         "status_code" (VInt (status_code response)))
      "duration_s" (VFloat duration) in
  log_requests cfg request call_next w
  = (Ok response,
     after_submit cfg "request log" (telemetry_call cfg w w2 request response)
       (after_logging cfg record (tick w2))).
Proof.
  intros Hnext duration record. unfold log_requests.
  run_bind. run_bind. erewrite bind_ok by exact Hnext.
  run_bind. run_bind. cbv zeta.
  erewrite bind_ok
    by (apply (logger_handle_after cfg record); cbn; unfold Logging.INFO; lia).
  erewrite bind_ok by apply (submit_world cfg _ _ "request log").
  reflexivity.
Qed.

Lemma request_record_formatted w2 rid request response duration msg :
  formatted (tick w2)
    (Logging.setattr
       (Logging.setattr
          (Logging.setattr
             (Logging.setattr
                (Logging.setattr
                   (Logging.mkLogRecord "myapp" Logging.INFO msg ∅)
                   "request_id" (VStr rid))
                "method" (VStr (method request)))
             "path" (VStr (url_path request)))
          "status_code" (VInt (status_code response)))
       "duration_s" (VFloat duration))
  = Json.dumps (float_repr w2)
      (VDict [("@timestamp",
               VStr (Datetime.isoformat (utc_clock w2 (S (ticks w2))) +:+ "Z"));
              ("level", VStr "INFO"); ("logger", VStr "myapp");
              ("message", VStr msg);
              ("request_id", VStr rid);
              ("method", VStr (method request));
              ("path", VStr (url_path request));
              ("status_code", VInt (status_code response));
              ("duration_s", VFloat duration)]).
Proof.
  unfold formatted. rewrite log_record_of_entries. reflexivity.
Qed.

Lemma login_record_formatted w user_id :
  formatted w (login_record user_id)
  = Json.dumps (float_repr w)
      (VDict [("@timestamp",
               VStr (Datetime.isoformat (utc_clock w (ticks w)) +:+ "Z"));
              ("level", VStr "INFO"); ("logger", VStr "myapp");
              ("message", VStr ("user_login user_id=" +:+ Str.of_Z user_id));
              ("user_id", VInt user_id);
              ("event", VStr "user_login")]).
Proof.
  unfold formatted. rewrite log_record_of_entries. reflexivity.
Qed.

(** ** The lines the handlers write *)

(** X8: for a request whose downstream handler returns, the first line
    the middleware adds to the log file is an INFO record that carries
    the same request_id, method, path, status_code and duration_s as
    the telemetry document; it is stamped with the clock reading taken
    when it is formatted, after the end of the measurement, while the
    document is stamped with the reading taken on arrival.  At most one
    more line follows, and outside dev nothing goes to the console. *)
Theorem log_requests_log_line
    (cfg : Config) (request : Request) (call_next : Request -> M Response)
    (w : World) (response : Response) (w2 : World) :
  call_next request (entered w) = (Ok response, w2) ->
  let rid := request_id_of w in
  let duration :=
    Datetime.total_seconds
      (Datetime.sub (utc_clock w2 (ticks w2)) (utc_clock w (ticks w))) in
  let line :=
    Json.dumps (float_repr w2)
      (VDict [("@timestamp",
               VStr (Datetime.isoformat (utc_clock w2 (S (ticks w2))) +:+ "Z"));
              ("level", VStr "INFO"); ("logger", VStr "myapp");
              ("message",
               VStr (request_message rid request response (float_repr w2 duration)));
              ("request_id", VStr rid);
              ("method", VStr (method request));
              ("path", VStr (url_path request));
              ("status_code", VInt (status_code response));
              ("duration_s", VFloat duration)]) in
  let w' := snd (log_requests cfg request call_next w) in
  (exists rest, file_log w' = file_log w2 ++ line :: rest /\ (length rest <= 1)%nat)
  /\ last (client_calls w')
     = Some (CallIndex (REQUEST_INDEX cfg)
               (VDict [("@timestamp",
                        VStr (Datetime.isoformat (utc_clock w (ticks w)) +:+ "Z"));
                       ("request_id", VStr rid);
                       ("method", VStr (method request));
                       ("path", VStr (url_path request));
                       ("status_code", VInt (status_code response));
                       ("duration_s", VFloat duration)])
               true)
  /\ (String.eqb (ENV cfg) "dev" = false -> stdout w' = stdout w2).
Proof.
  intros Hnext rid duration line w'. subst w'.
  rewrite (log_requests_world cfg request call_next w response w2 Hnext).
  cbn [snd]. subst line.
  rewrite <- (request_record_formatted w2 rid request response duration).
  fold rid duration.
  set (record := Logging.setattr _ _ _).
  unfold after_submit, after_logging, called, wrote, failure_record.
  destruct (String.eqb (ENV cfg) "dev") eqn:Hdev;
    cbn [write_line client_call tick snd fst sink client_calls file_log stdout
         utc_clock ticks urandom draws float_repr];
    destruct (sink w2 _ _);
    cbn [write_line client_call tick snd fst sink client_calls file_log stdout
         utc_clock ticks urandom draws float_repr];
    (split; [eexists; split; [rewrite <- ?app_assoc; cbn [app]; try reflexivity;
                              rewrite app_nil_r; reflexivity
                             | cbn; lia]|]);
    (split; [apply last_snoc|]); intros; first [discriminate | reflexivity].
Qed.

Lemma log_requests_log_line_witness :
  let w := Examples.world_down in
  let w2 := entered w in
  let response := mkResponse 200 (VDict [("message", VStr "Hello, world!")]) in
  let line :=
    Json.dumps Examples.repr_whole
      (VDict [("@timestamp", VStr "2024-01-02T03:04:02Z");
              ("level", VStr "INFO"); ("logger", VStr "myapp");
              ("message",
               VStr (request_message "00000000-0000-4000-8000-000000000000"
                       Examples.get_hello response "1.0"));
              ("request_id", VStr "00000000-0000-4000-8000-000000000000");
              ("method", VStr "GET");
              ("path", VStr "/hello");
              ("status_code", VInt 200);
              ("duration_s", VFloat (Qmake 1000000 1000000))]) in
  let w' := snd (log_requests Examples.cfg_default Examples.get_hello
                   (fun _ => route_hello) w) in
  (exists rest, file_log w' = file_log w2 ++ line :: rest /\ (length rest <= 1)%nat)
  /\ last (client_calls w')
     = Some (CallIndex "app-logs-requests"
               (VDict [("@timestamp", VStr "2024-01-02T03:04:00Z");
                       ("request_id", VStr "00000000-0000-4000-8000-000000000000");
                       ("method", VStr "GET");
                       ("path", VStr "/hello");
                       ("status_code", VInt 200);
                       ("duration_s", VFloat (Qmake 1000000 1000000))])
               true)
  /\ (String.eqb (ENV Examples.cfg_default) "dev" = false -> stdout w' = stdout w2).
Proof.
  apply (log_requests_log_line Examples.cfg_default Examples.get_hello
           (fun _ => route_hello) Examples.world_down
           (mkResponse 200 (VDict [("message", VStr "Hello, world!")]))
           (entered Examples.world_down)).
  reflexivity.
Defined.

(** X9: the login handler first writes an INFO record with the message
    [user_login user_id=<id>] and the fields user_id and event, stamped
    with the clock reading at entry; the business document is stamped
    with a later reading.  At most one more line follows, outside dev
    nothing goes to the console, and the handler never reads the random
    source. *)
Theorem user_login_log_line (cfg : Config) (user_id : Z) (w : World) :
  let line :=
    Json.dumps (float_repr w)
      (VDict [("@timestamp",
               VStr (Datetime.isoformat (utc_clock w (ticks w)) +:+ "Z"));
              ("level", VStr "INFO"); ("logger", VStr "myapp");
              ("message", VStr ("user_login user_id=" +:+ Str.of_Z user_id));
              ("user_id", VInt user_id);
              ("event", VStr "user_login")]) in
  let w' := snd (user_login cfg user_id w) in
  exists rest k,
    file_log w' = file_log w ++ line :: rest
    /\ (length rest <= 1)%nat
    /\ client_calls w'
       = client_calls w
           ++ [CallIndex (BUSINESS_INDEX cfg) (login_doc (utc_clock w k) user_id) true]
    /\ (ticks w < k < ticks w')%nat
    /\ (String.eqb (ENV cfg) "dev" = false -> stdout w' = stdout w)
    /\ draws w' = draws w
    /\ same_oracles w w'.
Proof.
  intros line w'. subst w' line.
  rewrite (user_login_world cfg user_id w). cbn [snd].
  rewrite <- (login_record_formatted w user_id).
  set (record := login_record user_id).
  unfold after_submit, after_logging, called, wrote, failure_record.
  destruct (String.eqb (ENV cfg) "dev") eqn:Hdev;
    cbn [write_line client_call tick snd fst sink client_calls file_log stdout
         utc_clock ticks urandom draws float_repr];
    destruct (sink w _ _);
    cbn [write_line client_call tick snd fst sink client_calls file_log stdout
         utc_clock ticks urandom draws float_repr];
    eexists; eexists;
    (split; [rewrite <- ?app_assoc; cbn [app]; try reflexivity;
             rewrite app_nil_r; reflexivity|]);
    (split; [cbn; lia|]); (split; [reflexivity|]); (split; [lia|]);
    (split; [intros; first [discriminate | reflexivity]|]);
    (split; [reflexivity|]); constructor; reflexivity.
Qed.

(** X10: a login request that passes through the middleware is answered
    200 with the login payload whatever the store does, and makes
    exactly two calls on the client, in this order: the business
    document, then the request telemetry document with status code 200.
    The clock reading in the business document lies strictly between
    the two readings the middleware measures the duration with. *)
Theorem login_request_end_to_end
    (cfg : Config) (request : Request) (user_id : Z) (w : World) :
  let run := log_requests cfg request (fun _ => route_user_login cfg user_id) w in
  let response := mkResponse 200 (login_payload user_id) in
  exists k k_end : nat,
    fst run = Ok response
    /\ client_calls (snd run)
       = client_calls w
           ++ [CallIndex (BUSINESS_INDEX cfg) (login_doc (utc_clock w k) user_id) true;
               CallIndex (REQUEST_INDEX cfg)
                 (request_doc (utc_clock w (ticks w)) (request_id_of w) request
                    response
                    (Datetime.total_seconds
                       (Datetime.sub (utc_clock w k_end) (utc_clock w (ticks w)))))
                 true]
    /\ (ticks w < k < k_end)%nat.
Proof.
  intros run response. subst run.
  assert (route_user_login cfg user_id (entered w)
          = (Ok response, snd (user_login cfg user_id (entered w)))) as Hnext.
  { unfold route_user_login.
    erewrite bind_ok by (rewrite user_login_world; reflexivity).
    rewrite user_login_world. reflexivity. }
  rewrite (log_requests_world cfg request _ w response _ Hnext).
  rewrite (user_login_world cfg user_id (entered w)). cbn [fst snd].
  unfold telemetry_call, telemetry_doc.
  unfold after_submit, after_logging, called, wrote, failure_record.
  destruct (String.eqb (ENV cfg) "dev") eqn:Hdev;
    cbn [write_line client_call tick entered snd fst sink client_calls file_log
         stdout utc_clock ticks urandom draws float_repr];
    destruct (sink w (length (client_calls w)) _);
    cbn [write_line client_call tick entered snd fst sink client_calls file_log
         stdout utc_clock ticks urandom draws float_repr];
    destruct (sink w _ _);
    cbn [write_line client_call tick entered snd fst sink client_calls file_log
         stdout utc_clock ticks urandom draws float_repr];
    eexists; eexists;
    (split; [reflexivity|]);
    (split; [rewrite <- app_assoc; reflexivity | lia]).
Qed.

(** X11: a request for the business logs with a size outside [1, 1000]
    is answered 422 through the middleware; no search is sent to the
    store, and the one call made on the client is the telemetry
    document of the request, which records the status code 422 and the
    path of the request. *)
Theorem rejected_size_is_recorded
    (cfg : Config) (request : Request) (user_id : option Z) (event : option string)
    (start_time end_time : option Datetime.datetime) (n : Z) (w : World) :
  ~ (1 <= n <= 1000) ->
  let run :=
    log_requests cfg request
      (fun _ => route_get_business_logs cfg user_id event start_time end_time (Some n))
      w in
  exists error_type doc,
    fst run = Ok (validation_error_response "size" error_type)
    /\ status_code (validation_error_response "size" error_type) = 422
    /\ calls_since w (snd run) = [CallIndex (REQUEST_INDEX cfg) doc true]
    /\ getitem doc "status_code" = Ok (VInt 422)
    /\ getitem doc "path" = Ok (VStr (url_path request))
    /\ getitem doc "method" = Ok (VStr (method request)).
Proof.
  intros Hn run. subst run.
  destruct (validate_size_out_of_range n Hn) as [err Herr].
  assert (route_get_business_logs cfg user_id event start_time end_time (Some n)
            (entered w)
          = (Ok (validation_error_response "size" err), entered w)) as Hnext.
  { unfold route_get_business_logs. now rewrite Herr. }
  destruct (log_requests_run cfg request
              (fun _ => route_get_business_logs cfg user_id event start_time
                          end_time (Some n))
              w _ _ Hnext)
    as (w' & info & ts & Hrun & Hcalls & _).
  exists err, (telemetry_doc w (entered w) request
                 (validation_error_response "size" err)).
  rewrite Hrun. cbn [fst snd]. split; [reflexivity|]. split; [reflexivity|].
  split.
  - unfold calls_since. rewrite Hcalls. cbn [entered client_calls].
    apply drop_app_length.
  - repeat split.
Qed.

Lemma rejected_size_is_recorded_witness :
  let run :=
    log_requests Examples.cfg_default Examples.get_logs
      (fun _ => route_get_business_logs Examples.cfg_default None None None None
                  (Some 1001))
      Examples.world_up in
  exists error_type doc,
    fst run = Ok (validation_error_response "size" error_type)
    /\ status_code (validation_error_response "size" error_type) = 422
    /\ calls_since Examples.world_up (snd run)
       = [CallIndex (REQUEST_INDEX Examples.cfg_default) doc true]
    /\ getitem doc "status_code" = Ok (VInt 422)
    /\ getitem doc "path" = Ok (VStr (url_path Examples.get_logs))
    /\ getitem doc "method" = Ok (VStr (method Examples.get_logs)).
Proof.
  apply (rejected_size_is_recorded Examples.cfg_default Examples.get_logs
           None None None None 1001 Examples.world_up).
  lia.
Defined.

(** ** JSON string text *)

Lemma unescape_escape_char c rest :
  unescape (Json.escape_char c +:+ rest) = cons_char c (unescape rest).
Proof. destruct c as [[] [] [] [] [] [] [] []]; reflexivity. Qed.

(** X12: the escaping [json.dumps] applies to the strings of a log
    record loses nothing: reading the escaped text back gives the
    original string, so two different strings never have the same
    escaped text or the same quoted text. *)
Theorem escape_round_trip (s : string) :
  unescape (Json.escape s) = Some s
  /\ (forall s', Json.escape s = Json.escape s' -> s = s')
  /\ (forall s', Json.encode_str s = Json.encode_str s' -> s = s').
Proof.
  assert (forall t, unescape (Json.escape t) = Some t) as Hrt.
  { induction t as [|c t IH]; [reflexivity|].
    change (Json.escape (String c t)) with (Json.escape_char c +:+ Json.escape t).
    now rewrite unescape_escape_char, IH. }
  assert (forall t t', Json.escape t = Json.escape t' -> t = t') as Hinj.
  { intros t t' Heq. pose proof (Hrt t) as Ht. rewrite Heq, Hrt in Ht. congruence. }
  split; [apply Hrt|]. split; [apply Hinj|].
  intros s' Heq. unfold Json.encode_str in Heq.
  change (Json.quote +:+ Json.escape s +:+ Json.quote)
    with (String (Ascii.ascii_of_nat 34) (Json.escape s +:+ Json.quote)) in Heq.
  change (Json.quote +:+ Json.escape s' +:+ Json.quote)
    with (String (Ascii.ascii_of_nat 34) (Json.escape s' +:+ Json.quote)) in Heq.
  injection Heq as Heq. apply append_inv_tail in Heq. now apply Hinj.
Qed.

(** ** The request id *)

Lemma hex_digit_is_hex n : is_hex_char (Str.hex_digit n) = true.
Proof.
  destruct n as [|p|p]; try reflexivity.
  do 4 (destruct p as [p|p|]; try reflexivity).
Qed.

Lemma testbit_small c n : 0 <= c < 16 -> 4 <= n -> Z.testbit c n = false.
Proof.
  intros Hc Hn. destruct (Z.eq_dec c 0) as [->|Hc0]; [apply Z.bits_0|].
  apply Z.bits_above_log2; [lia|].
  apply Z.lt_le_trans with 4; [|exact Hn].
  apply Z.log2_lt_pow2; [lia|]. change (2 ^ 4) with 16. lia.
Qed.

(** The digit that holds the variant bits of a version-4 UUID is one of
    8, 9, a, b. *)
Lemma uuid4_variant_nibble r :
  exists l, 0 <= l < 4 /\ Str.nibble 15 (Uuid.int (Uuid.uuid4 r)) = 8 + l.
Proof.
  exists (Z.b2z (Z.testbit r 60) + 2 * Z.b2z (Z.testbit r 61)).
  split; [destruct (Z.testbit r 60), (Z.testbit r 61); cbn; lia|].
  unfold Str.nibble, Uuid.uuid4, Uuid.with_version. cbn [Uuid.int].
  change (4 * 15) with 60.
  apply Z.bits_inj'. intros n Hn.
  rewrite Z.land_spec, Z.shiftr_spec by lia.
  rewrite Z.lor_spec, Z.land_spec, Z.lor_spec, Z.land_spec.
  rewrite !Z.lnot_spec by lia.
  destruct (Z.ltb_spec n 4) as [Hlt|Hge].
  - assert (n = 0 \/ n = 1 \/ n = 2 \/ n = 3) as [-> | [-> | [-> | ->]]] by lia;
      [ change (0 + 60) with 60 | change (1 + 60) with 61
      | change (2 + 60) with 62 | change (3 + 60) with 63 ];
      destruct (Z.testbit r 60), (Z.testbit r 61), (Z.testbit r 62),
        (Z.testbit r 63); reflexivity.
  - change 15 with (Z.ones 4). rewrite Z.testbit_ones_nonneg by lia.
    replace (n <? 4) with false by (symmetry; apply Z.ltb_ge; lia).
    rewrite andb_false_r. symmetry.
    apply testbit_small; [|lia].
    destruct (Z.testbit r 60), (Z.testbit r 61); cbn; lia.
Qed.

Lemma hex_digit_not_hyphen n : is_hyphen (Str.hex_digit n) = false.
Proof.
  destruct n as [|p|p]; try reflexivity.
  do 4 (destruct p as [p|p|]; try reflexivity).
Qed.

(** The text of any UUID: hexadecimal digits, with hyphens at positions
    8, 13, 18 and 23 and nowhere else. *)
Lemma uuid_str_shape (u : Uuid.UUID) :
  Str.all_chars (fun c => is_hex_char c || is_hyphen c) (Uuid.str u) = true
  /\ (forall i c, String.get i (Uuid.str u) = Some c -> is_hyphen c = true ->
        i = 8%nat \/ i = 13%nat \/ i = 18%nat \/ i = 23%nat).
Proof.
  split.
  - cbv -[Str.hex_digit Str.nibble Uuid.int is_hex_char is_hyphen orb andb].
    rewrite !hex_digit_is_hex. reflexivity.
  - intros i c Hget Hhy.
    do 36 (destruct i as [|i];
           [lazy -[Str.hex_digit Str.nibble Uuid.int] in Hget;
            apply (f_equal (fun o => match o with Some x => x | None => c end))
              in Hget;
            cbv beta iota in Hget; subst c;
            first [ rewrite hex_digit_not_hyphen in Hhy; discriminate Hhy
                  | tauto ]|]).
    lazy -[Str.hex_digit Str.nibble Uuid.int] in Hget. discriminate Hget.
Qed.

(** X13: the request id of every request is a well-formed version-4
    UUID text: 36 characters, hyphens at positions 8, 13, 18 and 23,
    lowercase hexadecimal digits everywhere else, the digit 4 at
    position 14 and one of 8, 9, a, b at position 19. *)
Theorem request_id_format (w : World) :
  let rid := request_id_of w in
  String.length rid = 36%nat
  /\ Forall (fun i => String.get i rid = Some "-"%char) [8; 13; 18; 23]%nat
  /\ Str.all_chars (fun c => is_hex_char c || is_hyphen c) rid = true
  /\ (forall i c, String.get i rid = Some c -> is_hyphen c = true ->
        i = 8%nat \/ i = 13%nat \/ i = 18%nat \/ i = 23%nat)
  /\ String.get 14 rid = Some "4"%char
  /\ (exists c, String.get 19 rid = Some c
                /\ (c = "8" \/ c = "9" \/ c = "a" \/ c = "b")%char).
Proof.
  intros rid. subst rid. unfold request_id_of.
  destruct (uuid_str_shape (Uuid.uuid4 (urandom w (draws w)))) as [Hall Hhy].
  split; [reflexivity|].
  split; [repeat apply List.Forall_cons; try apply List.Forall_nil; reflexivity|].
  split; [exact Hall|]. split; [exact Hhy|].
  split; [now rewrite uuid_str_version_digit, uuid4_version|].
  destruct (uuid4_variant_nibble (urandom w (draws w))) as (l & Hl & Hnib).
  exists (Str.hex_digit (Str.nibble 15 (Uuid.int (Uuid.uuid4 (urandom w (draws w)))))).
  split; [reflexivity|]. rewrite Hnib.
  assert (l = 0 \/ l = 1 \/ l = 2 \/ l = 3) as [-> | [-> | [-> | ->]]] by lia;
    cbn; tauto.
Qed.

(** ** Hits that are not a list *)

(** X14: when [hits.hits] of the search response is not a list, the
    query endpoint raises [TypeError], except for an empty dict or an
    empty string, which it iterates zero times: it then returns the
    empty list as if the store held no document. *)
Theorem get_business_logs_hits_not_a_list
    (cfg : Config) (user_id : option Z) (event : option string)
    (start_time end_time : option Datetime.datetime) (n : Z)
    (w : World) (resp hits_obj hv : value) :
  sink w (length (client_calls w))
    (search_call cfg user_id event start_time end_time n) = Ok resp ->
  getitem resp "hits" = Ok hits_obj ->
  getitem hits_obj "hits" = Ok hv ->
  (forall l, hv <> VList l) ->
  let outcome := fst (get_business_logs cfg user_id event start_time end_time n w) in
  (hv = VDict [] \/ hv = VStr "" -> outcome = Ok (VList []))
  /\ (hv <> VDict [] -> hv <> VStr "" ->
      exists e, outcome = Raise e /\ exn_type e = "TypeError").
Proof.
  intros Hsink Hresp Hobj Hnl outcome. subst outcome.
  unfold get_business_logs, bind, client_search, client_call, lift, ret.
  unfold search_call in Hsink. rewrite Hsink, Hresp, Hobj. cbn [fst snd].
  split.
  - intros [-> | ->]; reflexivity.
  - intros Hd Hs. destruct hv as [ | b | z | q | s | l | d ].
    + cbn; eauto.
    + cbn; eauto.
    + cbn; eauto.
    + cbn; eauto.
    + destruct s as [|c s]; [contradiction|]. cbn; eauto.
    + now destruct (Hnl l).
    + destruct d as [|[k v] d]; [contradiction|]. cbn; eauto.
Qed.

Lemma get_business_logs_hits_not_a_list_witness :
  let outcome :=
    fst (get_business_logs Examples.cfg_default None None None None 50
           MoreExamples.world_hits_dict) in
  (VDict [] = VDict [] \/ VDict [] = VStr "" -> outcome = Ok (VList []))
  /\ (VDict [] <> VDict [] -> VDict [] <> VStr "" ->
      exists e, outcome = Raise e /\ exn_type e = "TypeError").
Proof.
  apply (get_business_logs_hits_not_a_list Examples.cfg_default None None None None
           50 MoreExamples.world_hits_dict
           (VDict [("hits", VDict [("hits", VDict [])])])
           (VDict [("hits", VDict [])]) (VDict [])).
  - reflexivity.
  - reflexivity.
  - reflexivity.
  - intros l. discriminate.
Defined.

(** ** Configuration from the environment *)

Lemma lower_char_is c x :
  (x = "d" \/ x = "e" \/ x = "v")%char ->
  Str.lower_char c = x ->
  c = x \/ Ascii.nat_of_ascii c = (Ascii.nat_of_ascii x - 32)%nat.
Proof.
  intros Hx. destruct c as [[] [] [] [] [] [] [] []];
    destruct Hx as [-> | [-> | ->]]; vm_compute; intros H;
    first [discriminate H | now left | now right].
Qed.

(** X15: the console handler is installed exactly when the value of
    APP_ENV, lower-cased, is ["dev"], which are the eight spellings of
    dev in upper and lower case; with APP_ENV unset only the file
    handler is installed.  The two index names are the values of
    BUSINESS_INDEX and REQUEST_INDEX, or ["app-logs-business"] and
    ["app-logs-requests"] when unset. *)
Theorem configuration_from_environment (environ : gmap string string) :
  let cfg := load_config environ in
  (handlers cfg = [file_handler; console_handler] \/ handlers cfg = [file_handler])
  /\ (handlers cfg = [file_handler; console_handler]
      <-> exists v, environ !! "APP_ENV" = Some v /\ Str.lower v = "dev")
  /\ (forall v, environ !! "APP_ENV" = Some v -> Str.lower v = "dev" ->
        exists c1 c2 c3,
          v = String c1 (String c2 (String c3 EmptyString))
          /\ (c1 = "d" \/ c1 = "D")%char /\ (c2 = "e" \/ c2 = "E")%char
          /\ (c3 = "v" \/ c3 = "V")%char)
  /\ BUSINESS_INDEX cfg = default "app-logs-business" (environ !! "BUSINESS_INDEX")
  /\ REQUEST_INDEX cfg = default "app-logs-requests" (environ !! "REQUEST_INDEX").
Proof.
  intros cfg. subst cfg. unfold handlers, load_config, getenv. cbn [ENV].
  split.
  { destruct (String.eqb _ "dev"); [left | right]; reflexivity. }
  split.
  { destruct (String.eqb _ "dev") eqn:E.
    - apply String.eqb_eq in E. split; [intros _ | reflexivity].
      destruct (environ !! "APP_ENV") as [v|]; [eauto | discriminate E].
    - apply String.eqb_neq in E. split; [discriminate|].
      intros (v & Hv & Hlow). rewrite Hv in E. contradiction. }
  split.
  { intros v _ Hlow.
    destruct v as [|c1 [|c2 [|c3 [|c4 v]]]]; try discriminate Hlow.
    cbn in Hlow. injection Hlow as H1 H2 H3.
    exists c1, c2, c3. split; [reflexivity|].
    apply (lower_char_is c1 "d") in H1; [|tauto].
    apply (lower_char_is c2 "e") in H2; [|tauto].
    apply (lower_char_is c3 "v") in H3; [|tauto].
    repeat split.
    - destruct H1 as [->|H1]; [now left|right].
      apply (f_equal Ascii.ascii_of_nat) in H1.
      now rewrite Ascii.ascii_nat_embedding in H1.
    - destruct H2 as [->|H2]; [now left|right].
      apply (f_equal Ascii.ascii_of_nat) in H2.
      now rewrite Ascii.ascii_nat_embedding in H2.
    - destruct H3 as [->|H3]; [now left|right].
      apply (f_equal Ascii.ascii_of_nat) in H3.
      now rewrite Ascii.ascii_nat_embedding in H3. }
  split; [destruct (environ !! "BUSINESS_INDEX") | destruct (environ !! "REQUEST_INDEX")];
    reflexivity.
Qed.

(** An environment that spells dev with a capital and renames the
    request index. *)
Example mixed_case_dev_environment :
  handlers (load_config MoreExamples.environ_dev) = [file_handler; console_handler]
  /\ REQUEST_INDEX (load_config MoreExamples.environ_dev) = "requests-2024"
  /\ BUSINESS_INDEX (load_config MoreExamples.environ_dev) = "app-logs-business".
Proof. vm_compute. repeat split. Qed.
